(** * numapde-create-new-publication: a shallow embedding of the script

    The repository holds one Python script,
    [bin/numapde-create-new-publication.py].  It forks a template project on a
    Gitlab server, waits for the fork to be initialised, sets the description
    of the new project and commits a README generated from a template.

    The script is embedded statement by statement in a small monad that
    records every effect (environment look-ups, argument parsing, printing,
    HTTP requests with their outcome, sleeping, file reads) in a trace and
    that stops at the first [sys.exit] or uncaught exception. *)

From Stdlib Require Import String Ascii List ZArith Bool Lia DecimalString.
Import ListNotations.
Open Scope list_scope.
Open Scope string_scope.

Set Warnings "-register-all".

(** ** Python values *)

(** The values the script handles: what [json.loads] returns and what goes
    into the request payloads.  A float keeps its lexeme only, no arithmetic
    is done on it. *)
Inductive pyval : Type :=
| PNone
| PBool (b : bool)
| PInt (z : Z)
| PFloat (lexeme : string)
| PStr (s : string)
| PList (l : list pyval)
| PDict (d : list (string * pyval)).

(** A [dict] with string keys, in insertion order. *)
Definition dict := list (string * pyval).

Fixpoint dict_get (d : dict) (k : string) : option pyval :=
  match d with
  | [] => None
  | (k', v) :: d' => if String.eqb k' k then Some v else dict_get d' k
  end.

(** Exceptions that can escape the script. *)
Inductive exn : Type :=
| KeyError
| TypeError
| ValueError
| JSONDecodeError
| OSError
| RequestException.

(** [v[k]] for a string key [k]: only a dict can be subscripted this way. *)
Definition subscript (v : pyval) (k : string) : exn + pyval :=
  match v with
  | PDict d => match dict_get d k with
               | Some x => inr x
               | None => inl KeyError
               end
  | _ => inl TypeError
  end.

(** [v is None] *)
Definition is_None (v : pyval) : bool :=
  match v with PNone => true | _ => false end.

(** A value that is either a [str] or [None] (an argparse attribute). *)
Definition of_optstr (o : option string) : pyval :=
  match o with Some s => PStr s | None => PNone end.

(** Decimal rendering of an [int], as [%d] and [str] produce it. *)
Definition dec (z : Z) : string := NilZero.string_of_int (Z.to_int z).

(** [s.replace(old, new)] for one-character [old] and [new]. *)
Fixpoint replace (old new : ascii) (s : string) : string :=
  match s with
  | EmptyString => EmptyString
  | String c s' => String (if Ascii.eqb c old then new else c) (replace old new s')
  end.

(** ** The command line *)

(** The attributes of the namespace [parser.parse_args()] returns.  [None] in
    the two optional attributes is Python's [None]. *)
Record args : Type := mk_args {
  longTitle : string;
  shortTitle : string;
  namespace : option string;
  description : option string
}.

(** [parse_args] returns the namespace, or leaves the process: [-h] prints the
    help text and exits with status 0, an error prints the usage on stderr and
    exits with status 2. *)
Inductive parse_result : Type :=
| Parsed (a : args)
| ParseHelp
| ParseError.

(** How argparse classifies one argument string of this parser.  Only the
    cases that do not depend on abbreviation, [=] splitting or [--] are
    classified here: a string that does not start with [-] is a positional
    argument, the two option strings select their option. *)
Inductive arg_class : Type :=
| APositional
| ANamespace
| ADescription.

Definition classify (a : string) : option arg_class :=
  if String.eqb a "--namespace" then Some ANamespace
  else if String.eqb a "--description" then Some ADescription
  else match a with
       | EmptyString => Some APositional
       | String c _ => if Ascii.eqb c "-" then None else Some APositional
       end.

Definition is_positional (a : string) : bool :=
  match classify a with Some APositional => true | _ => false end.

Definition plain_args (argv : list string) : bool :=
  forallb (fun a => match classify a with Some _ => true | None => false end) argv.

(** Nothing that could be an option's value follows. *)
Definition no_value_follows (post : list string) : bool :=
  match post with
  | [] => true
  | v :: _ => negb (is_positional v)
  end.

(** The default namespace (line 31) and the default description (line 55). *)
Definition default_namespace : string := "numapde/Publications".
Definition default_description : string := EmptyString.

(** argparse's consumption of classified argument strings: positional
    strings fill [longTitle] and [shortTitle] in order, a third one is an
    unrecognised argument; an option with [nargs='?'] takes the following
    string when it is positional, and its [const], which is [None] as none
    was given, when nothing or another option follows.  [pos] holds the
    positional values read so far. *)
Fixpoint consume (argv : list string) (pos : list string)
         (ns desc : option string) : parse_result :=
  match argv with
  | [] =>
      match pos with
      | [l; s] => Parsed (mk_args l s ns desc)
      | _ => ParseError
      end
  | a :: rest =>
      match classify a with
      | Some APositional =>
          if Nat.ltb (length pos) 2 then consume rest (pos ++ [a])%list ns desc
          else ParseError
      | Some ANamespace =>
          match rest with
          | v :: rest' =>
              if is_positional v then consume rest' pos (Some v) desc
              else consume rest pos None desc
          | [] => consume rest pos None desc
          end
      | Some ADescription =>
          match rest with
          | v :: rest' =>
              if is_positional v then consume rest' pos ns (Some v)
              else consume rest pos ns None
          | [] => consume rest pos ns None
          end
      | None => ParseError
      end
  end.

(** ** HTTP *)

Inductive http_method : Type := POST | GET | PUT.

Record request : Type := mk_request {
  method : http_method;
  url : string;
  headers : dict;
  data : dict
}.

Record response : Type := mk_response {
  status_code : Z;
  text : string
}.

(** What a call of [requests.post/get/put] does: it returns a response or
    raises (no connection, TLS failure, ...). *)
Inductive http_result : Type :=
| Responded (r : response)
| Failed.

(** The five places of the script that issue a request (lines 92, 110, 115,
    127 and 158). *)
Inductive call_site : Type :=
| ForkPost
| PollGet
| PollRetry
| DescriptionPut
| ReadmePut.

Definition POST_OK : Z := 201.
Definition PUT_OK : Z := 200.
Definition GET_OK : Z := PUT_OK.

Definition templateId : Z := 5326.

(** ** Effects and the script monad *)

Inductive event : Type :=
| EvGetEnv (name : string)
| EvParseArgs (argv : list string)
| EvPrint (line : string)
| EvHttp (site : call_site) (req : request) (res : http_result)
| EvSleep (seconds : Z)
| EvRead (path : string).

Inductive outcome : Type :=
| Completed
| SysExit (code : Z)
| Uncaught (e : exn).

(** The exit status of the process: an uncaught exception prints a traceback
    on stderr and gives status 1. *)
Definition exit_status (o : outcome) : Z :=
  match o with
  | Completed => 0
  | SysExit c => c
  | Uncaught _ => 1
  end.

(** Everything outside the script that it reads. *)
Record world : Type := mk_world {
  environ : string -> option string;
  argv0 : string;
  argv : list string;
  script_dir : string;
  read_file : string -> option string;
  http : nat -> http_result
}.

(** A computation takes the number of HTTP requests issued so far and returns
    the events it adds, the new number of requests, and a value or the way
    the process ended. *)
Definition M (A : Type) : Type := nat -> list event * nat * (outcome + A).

Definition ret {A} (a : A) : M A := fun n => ([], n, inr a).

Definition bind {A B} (m : M A) (f : A -> M B) : M B :=
  fun n =>
    match m n with
    | (t1, n1, inl o) => (t1, n1, inl o)
    | (t1, n1, inr a) =>
        match f a n1 with
        | (t2, n2, r) => ((t1 ++ t2)%list, n2, r)
        end
    end.

Declare Scope script_scope.
Delimit Scope script_scope with script.
Notation "x <- m ;; k" := (bind m (fun x => k))
  (at level 100, m at next level, right associativity) : script_scope.
Notation "m ;; k" := (bind m (fun _ => k))
  (at level 100, right associativity) : script_scope.
Open Scope script_scope.

Definition emit (e : event) : M unit := fun n => ([e], n, inr tt).
Definition stop {A} (o : outcome) : M A := fun n => ([], n, inl o).

Definition print (line : string) : M unit := emit (EvPrint line).
Definition sys_exit {A} (code : Z) : M A := stop (SysExit code).
Definition raise {A} (e : exn) : M A := stop (Uncaught e).
Definition time_sleep (seconds : Z) : M unit := emit (EvSleep seconds).

(** Lifts a pure operation that may raise. *)
Definition try {A} (r : exn + A) : M A :=
  match r with
  | inl e => raise e
  | inr a => ret a
  end.

(** ** The script *)

Record result : Type := mk_result {
  trace : list event;
  final : outcome
}.

Definition nl : string := String (ascii_of_nat 10) EmptyString.

Section Script.

(** Library functions the script calls and that are not modelled in full:
    [json.loads] ([None] when it raises), [str] of a float, list or dict,
    the [%] operator and [parse_args] outside the cases written out
    below. *)
Variable json_loads : string -> option pyval.
Variable str_other : pyval -> string.
Variable mod_other : string -> dict -> exn + string.
Variable parse_other : list string -> parse_result.

(** [str(v)] *)
Definition str (v : pyval) : string :=
  match v with
  | PStr s => s
  | PNone => "None"
  | PBool true => "True"
  | PBool false => "False"
  | PInt z => dec z
  | _ => str_other v
  end.

(** *** The [%] operator with a dict on the right

    The scanner follows the format string from left to right.  It handles
    literal characters, [%%], [%(key)s] and [%(key)d] with an [int]; on
    anything else (flags, widths, other conversions, nested parentheses in
    a key) it gives up with [None] and the result is [mod_other]'s. *)
Inductive fmt_state : Type :=
| FLit
| FPercent
| FKey (key : string)
| FConv (v : pyval).

Fixpoint fmt_scan (d : dict) (st : fmt_state) (out : string) (fmt : string)
  : option (exn + string) :=
  match fmt with
  | EmptyString =>
      match st with
      | FLit => Some (inr out)
      | _ => Some (inl ValueError)
      end
  | String c fmt' =>
      match st with
      | FLit =>
          if Ascii.eqb c "%" then fmt_scan d FPercent out fmt'
          else fmt_scan d FLit (out ++ String c EmptyString) fmt'
      | FPercent =>
          if Ascii.eqb c "%" then fmt_scan d FLit (out ++ "%") fmt'
          else if Ascii.eqb c "(" then fmt_scan d (FKey EmptyString) out fmt'
          else None
      | FKey key =>
          if Ascii.eqb c ")" then
            match dict_get d key with
            | Some v => fmt_scan d (FConv v) out fmt'
            | None => Some (inl KeyError)
            end
          else if Ascii.eqb c "(" then None
          else fmt_scan d (FKey (key ++ String c EmptyString)) out fmt'
      | FConv v =>
          if Ascii.eqb c "s" then fmt_scan d FLit (out ++ str v) fmt'
          else if Ascii.eqb c "d" then
            match v with
            | PInt z => fmt_scan d FLit (out ++ dec z) fmt'
            | _ => None
            end
          else None
      end
  end.

(** [fmt % d] *)
Definition pymod (fmt : string) (d : dict) : exn + string :=
  match fmt_scan d FLit EmptyString fmt with
  | Some r => r
  | None => mod_other fmt d
  end.

(** [parser.parse_args()] on [sys.argv[1:]], with the defaults of lines 54
    and 55. *)
Definition parse_args (argv : list string) : parse_result :=
  if plain_args argv
  then consume argv [] (Some default_namespace) (Some default_description)
  else parse_other argv.

Variable w : world.

Definition os_environ_get (name : string) : M (option string) :=
  fun n => ([EvGetEnv name], n, inr (environ w name)).

Definition parser_parse_args : M args :=
  fun n =>
    ([EvParseArgs (argv w)], n,
     match parse_args (argv w) with
     | Parsed a => inr a
     | ParseHelp => inl (SysExit 0)
     | ParseError => inl (SysExit 2)
     end).

(** [requests.post], [requests.get] and [requests.put]: the request and
    what came back are recorded; a failed call raises. *)
Definition send (site : call_site) (req : request) : M response :=
  fun n =>
    ([EvHttp site req (http w n)], S n,
     match http w n with
     | Responded r => inr r
     | Failed => inl (Uncaught RequestException)
     end).

Definition loads (s : string) : M pyval :=
  match json_loads s with
  | Some v => ret v
  | None => raise JSONDecodeError
  end.

(** [open(path).read()] *)
Definition read (path : string) : M string :=
  fun n =>
    ([EvRead path], n,
     match read_file w path with
     | Some s => inr s
     | None => inl (Uncaught OSError)
     end).

Definition nWaitTime : Z := 2.

(** Lines 113 to 117: the [while] loop, by recursion on [nWaitMax]. *)
Fixpoint poll (newUrl : string) (hdrs : dict) (nWaitMax : nat)
         (projInfo : pyval) : M pyval :=
  default_branch <- try (subscript projInfo "default_branch") ;;
  if is_None default_branch then
    match nWaitMax with
    | O => ret projInfo
    | S nWaitMax' =>
        time_sleep nWaitTime ;;
        r <- send PollRetry (mk_request GET newUrl hdrs []) ;;
        projInfo' <- loads (text r) ;;
        poll newUrl hdrs nWaitMax' projInfo'
    end
  else ret projInfo.

(** Line 28 and line 79. *)
Definition urlFormat (gitlabServer : string) : string :=
  "https://" ++ gitlabServer ++ "/api/v4/projects/%(projectId)d".
Definition auth (privateToken : string) : dict :=
  [("Private-Token", PStr privateToken)].

(** The lines the script prints. *)
Definition msg_server : string :=
  "Please set the NUMAPDE_GITLAB_SERVER variable.".
Definition msg_token : string :=
  "Please set the NUMAPDE_GITLAB_TOKEN variable to your personal Gitlab access token.".
Definition msg_requesting (url gitlabServer : string) (a : args) : string :=
  "Requesting the Gitlab server to fork " ++ url ++ " into " ++ "https://"
  ++ gitlabServer ++ "/" ++ str (of_optstr (namespace a)) ++ "/"
  ++ replace " " "-" (shortTitle a) ++ ".".
Definition msg_fork (status : Z) (body : string) : string :=
  "Something went wrong during forking. The status code is " ++ dec status
  ++ " and the result text is " ++ body ++ ".".
Definition msg_waiting (nWaitMax : nat) : string :=
  "Waiting at most " ++ dec (Z.of_nat nWaitMax * nWaitTime)
  ++ " seconds to allow Gitlab to create the project...".
Definition msg_timeout (gitlabServer : string) (ns : option string) : string :=
  "the project creation took a too long time. Please check yourself if a project with your short title exists at "
  ++ "https://" ++ gitlabServer ++ "/" ++ str (of_optstr ns).
Definition msg_description (body : string) : string :=
  "Updating project description failed. The result text is: " ++ body.
Definition msg_template (readmePath : string) : string :=
  "Using template " ++ readmePath ++ ".".
Definition msg_readme (body : string) : string :=
  "Commiting README.md failed. The result text is: " ++ body.
Definition msg_clone (sshURLToRepo : pyval) : string :=
  "Clone the new repository using" ++ nl
  ++ "  git clone --recurse-submodules " ++ str sshURLToRepo.
Definition msg_update : string :=
  "Then update the submodules via" ++ nl ++ "  bin/numapde-submodules-update.sh".

(** The three payloads (lines 87, 124 and 155) and the substitution
    dictionary of line 152. *)
Definition fork_payload (a : args) : dict :=
  [("namespace", of_optstr (namespace a));
   ("name", PStr (longTitle a));
   ("id", PInt templateId);
   ("path", PStr (replace " " "-" (shortTitle a)))].

Definition description_payload (newId : pyval) (a : args) : dict :=
  [("id", newId); ("description", of_optstr (description a))].

Definition readme_dict (a : args) (httpURLToRepo sshURLToRepo : pyval) : dict :=
  [("PUBLICATION_TITLE", PStr (longTitle a));
   ("HTTP_URL_TO_REPO", httpURLToRepo);
   ("SSH_URL_TO_REPO", sshURLToRepo)].

Definition readme_payload (readme : string) : dict :=
  [("file_path", PStr "README%2Emd");
   ("branch", PStr "master");
   ("content", PStr readme);
   ("commit_message", PStr (argv0 w ++ " auto-generates README.md"))].

Definition readmePath : string := script_dir w ++ "/../README.md.in".

(** What the trace holds when the fork has been answered with [r] and the
    script is about to poll (lines 22 to 107). *)
Definition fork_events (gitlabServer privateToken url : string) (a : args)
           (r : response) : list event :=
  [EvGetEnv "NUMAPDE_GITLAB_SERVER";
   EvParseArgs (argv w);
   EvGetEnv "NUMAPDE_GITLAB_TOKEN";
   EvPrint (msg_requesting (url ++ "/fork") gitlabServer a);
   EvHttp ForkPost
          (mk_request POST (url ++ "/fork") (auth privateToken) (fork_payload a))
          (Responded r);
   EvPrint (msg_waiting 5)].

(** What the script adds after a successful poll when it runs to its end
    (lines 124 to 167). *)
Definition commit_events (privateToken newUrl : string) (newId : pyval) (a : args)
           (rDescription : response) (readme : string) (rReadme : response)
           (sshURLToRepo : pyval) : list event :=
  [EvHttp DescriptionPut
          (mk_request PUT newUrl (auth privateToken) (description_payload newId a))
          (Responded rDescription);
   EvPrint (msg_template readmePath);
   EvRead readmePath;
   EvHttp ReadmePut
          (mk_request PUT (newUrl ++ "/repository/files/README.md")
                      (auth privateToken) (readme_payload readme))
          (Responded rReadme);
   EvPrint (msg_clone sshURLToRepo);
   EvPrint msg_update].

(** The script, top to bottom; the numbers are its lines. *)
Definition script : M unit :=
  (* 22-25 *)
  gitlabServer <- os_environ_get "NUMAPDE_GITLAB_SERVER" ;;
  gitlabServer <- match gitlabServer with
                  | None => print msg_server ;; sys_exit 1
                  | Some s => ret s
                  end ;;
  (* 57 *)
  a <- parser_parse_args ;;
  (* 60-63 *)
  privateToken <- os_environ_get "NUMAPDE_GITLAB_TOKEN" ;;
  privateToken <- match privateToken with
                  | None => print msg_token ;; sys_exit 1
                  | Some s => ret s
                  end ;;
  (* 79 *)
  let hdrs := auth privateToken in
  (* 82 *)
  url <- try (pymod (urlFormat gitlabServer) [("projectId", PInt templateId)]) ;;
  let url := url ++ "/fork" in
  (* 87 *)
  let payload := fork_payload a in
  (* 91-96 *)
  print (msg_requesting url gitlabServer a) ;;
  r <- send ForkPost (mk_request POST url hdrs payload) ;;
  (if Z.eqb (status_code r) POST_OK then ret tt
   else print (msg_fork (status_code r) (text r)) ;; sys_exit 1) ;;
  (* 99-101 *)
  newProject <- loads (text r) ;;
  newId <- try (subscript newProject "id") ;;
  newUrl <- try (pymod (urlFormat gitlabServer) [("projectId", newId)]) ;;
  (* 105-107 *)
  let nWaitMax := 5%nat in
  print (msg_waiting nWaitMax) ;;
  (* 110-117 *)
  projInfo <- send PollGet (mk_request GET newUrl hdrs []) ;;
  projInfo <- loads (text projInfo) ;;
  projInfo <- poll newUrl hdrs nWaitMax projInfo ;;
  (* 119-121 *)
  default_branch <- try (subscript projInfo "default_branch") ;;
  (if is_None default_branch
   then print (msg_timeout gitlabServer (namespace a)) ;; sys_exit 1
   else ret tt) ;;
  (* 124-131 *)
  let payload := description_payload newId a in
  rDescription <- send DescriptionPut (mk_request PUT newUrl hdrs payload) ;;
  (if Z.eqb (status_code rDescription) PUT_OK then ret tt
   else print (msg_description (text rDescription)) ;; sys_exit 1) ;;
  (* 137-145 *)
  let readmeUrl := newUrl ++ "/repository/files/README.md" in
  print (msg_template readmePath) ;;
  readme <- read readmePath ;;
  (* 148-152 *)
  sshURLToRepo <- try (subscript newProject "ssh_url_to_repo") ;;
  httpURLToRepo <- try (subscript newProject "http_url_to_repo") ;;
  readme <- try (pymod readme (readme_dict a httpURLToRepo sshURLToRepo)) ;;
  (* 155-162 *)
  let payload := readme_payload readme in
  rReadme <- send ReadmePut (mk_request PUT readmeUrl hdrs payload) ;;
  (if Z.eqb (status_code rReadme) PUT_OK then ret tt
   else print (msg_readme (text rReadme)) ;; sys_exit 1) ;;
  (* 166-167 *)
  print (msg_clone sshURLToRepo) ;;
  print msg_update.

(** One run of the script, from a fresh process. *)
Definition run : result :=
  match script 0%nat with
  | (t, _, inl o) => mk_result t o
  | (t, _, inr _) => mk_result t Completed
  end.

End Script.


(** ** Reading a trace *)

(** The lines printed on standard output, in order. *)
Fixpoint printed (t : list event) : list string :=
  match t with
  | [] => []
  | EvPrint line :: t' => line :: printed t'
  | _ :: t' => printed t'
  end.

(** The HTTP calls of a trace: where in the script, method and URL. *)
Fixpoint calls (t : list event) : list (call_site * http_method * string) :=
  match t with
  | [] => []
  | EvHttp site req _ :: t' => (site, method req, url req) :: calls t'
  | _ :: t' => calls t'
  end.

(** Events of the readiness poll: the two GET sites and the sleeps. *)
Definition is_poll_event (e : event) : bool :=
  match e with
  | EvSleep _ => true
  | EvHttp PollGet _ _ => true
  | EvHttp PollRetry _ _ => true
  | _ => false
  end.

(** The events of one round of the loop per result: sleep, then GET. *)
Definition retries (req : request) (results : list http_result) : list event :=
  flat_map (fun res => [EvSleep nWaitTime; EvHttp PollRetry req res]) results.

(** The last event of a trace. *)
Definition last_event (t : list event) : option event :=
  last (map Some t) None.

(** The results of the polls of a trace, in order. *)
Fixpoint poll_results (t : list event) : list http_result :=
  match t with
  | [] => []
  | EvHttp PollGet _ res :: t' => res :: poll_results t'
  | EvHttp PollRetry _ res :: t' => res :: poll_results t'
  | _ :: t' => poll_results t'
  end.

(** No environment variable is read before the arguments are parsed. *)
Fixpoint parsing_precedes_environment (t : list event) : bool :=
  match t with
  | [] => true
  | EvParseArgs _ :: _ => true
  | EvGetEnv _ :: _ => false
  | _ :: t' => parsing_precedes_environment t'
  end.

(** [s.startswith(p)] *)
Fixpoint starts_with (p s : string) : bool :=
  match p with
  | EmptyString => true
  | String a p' =>
      match s with
      | EmptyString => false
      | String b s' => Ascii.eqb a b && starts_with p' s'
      end
  end.

(** [needle in hay] *)
Fixpoint contains (needle hay : string) : bool :=
  starts_with needle hay ||
  match hay with
  | EmptyString => false
  | String _ hay' => contains needle hay'
  end.

(** The status a call site compares the response with; the two GET sites
    compare with nothing. *)
Definition expected_status (site : call_site) : option Z :=
  match site with
  | ForkPost => Some POST_OK
  | DescriptionPut => Some PUT_OK
  | ReadmePut => Some PUT_OK
  | PollGet => None
  | PollRetry => None
  end.

Section Bodies.

Variable json_loads : string -> option pyval.

(** The decoded body of a response, when there is one. *)
Definition body_of (res : http_result) : option pyval :=
  match res with
  | Responded r => json_loads (text r)
  | Failed => None
  end.

(** [projInfo['default_branch'] is None] evaluates to [True]. *)
Definition branch_null (projInfo : pyval) : bool :=
  match subscript projInfo "default_branch" with
  | inr v => is_None v
  | inl _ => false
  end.

Definition null_result (res : http_result) : bool :=
  match body_of res with
  | Some projInfo => branch_null projInfo
  | None => false
  end.

(** The value of [projInfo] after the loop has received [results], starting
    from [projInfo]. *)
Definition last_info (projInfo : pyval) (results : list http_result) : option pyval :=
  match results with
  | [] => Some projInfo
  | _ => body_of (last results Failed)
  end.

Definition last_null (projInfo : pyval) (results : list http_result) : bool :=
  match last_info projInfo results with
  | Some info => branch_null info
  | None => false
  end.

End Bodies.

(** ** The README as the specification words it

    Follows the spec's words, not the code: the template with each of the
    three placeholders replaced by its value, in one pass from left to right.
    [skip] counts the characters of a placeholder still to be dropped. *)
Definition PH_TITLE : string := "%(PUBLICATION_TITLE)s".
Definition PH_HTTP : string := "%(HTTP_URL_TO_REPO)s".
Definition PH_SSH : string := "%(SSH_URL_TO_REPO)s".

Fixpoint replace_placeholders (title http ssh : string) (skip : nat)
         (template : string) : string :=
  match template with
  | EmptyString => EmptyString
  | String c rest =>
      match skip with
      | S k => replace_placeholders title http ssh k rest
      | O =>
          if starts_with PH_TITLE template
          then title ++ replace_placeholders title http ssh (String.length PH_TITLE - 1) rest
          else if starts_with PH_HTTP template
          then http ++ replace_placeholders title http ssh (String.length PH_HTTP - 1) rest
          else if starts_with PH_SSH template
          then ssh ++ replace_placeholders title http ssh (String.length PH_SSH - 1) rest
          else String c (replace_placeholders title http ssh 0 rest)
      end
  end.

(** Every [%] of the template starts one of the three placeholders. *)
Fixpoint only_placeholders (skip : nat) (template : string) : bool :=
  match template with
  | EmptyString => true
  | String c rest =>
      match skip with
      | S k => only_placeholders k rest
      | O =>
          if starts_with PH_TITLE template
          then only_placeholders (String.length PH_TITLE - 1) rest
          else if starts_with PH_HTTP template
          then only_placeholders (String.length PH_HTTP - 1) rest
          else if starts_with PH_SSH template
          then only_placeholders (String.length PH_SSH - 1) rest
          else negb (Ascii.eqb c "%") && only_placeholders 0 rest
      end
  end.

(** No [%] at all (a server name that is a host name). *)
Fixpoint no_percent (s : string) : bool :=
  match s with
  | EmptyString => true
  | String c s' => negb (Ascii.eqb c "%") && no_percent s'
  end.

(** ** The specification's sentences

    Four sentences of the specification, stated as they are written, to be
    compared with what the script does. *)
Section Stated.

Variable json_loads : string -> option pyval.
Variable str_other : pyval -> string.
Variable parse_other : list string -> parse_result.

(** A call succeeds when it is answered with the status of its kind. *)
Definition status_ok (site : call_site) (r : response) : bool :=
  Z.eqb (status_code r)
        match site with
        | ForkPost => POST_OK
        | PollGet => GET_OK
        | PollRetry => GET_OK
        | DescriptionPut => PUT_OK
        | ReadmePut => PUT_OK
        end.

Definition call_failed (e : event) : bool :=
  match e with
  | EvHttp site _ (Responded r) => negb (status_ok site r)
  | EvHttp _ _ Failed => true
  | _ => false
  end.

(** The poll ran out: the last answer still had no default branch. *)
Definition timed_out (t : list event) : bool :=
  null_result json_loads (last (poll_results t) Failed).

(** The last thing the process did was to print a line on standard output. *)
Definition diagnostic_printed (t : list event) : Prop :=
  exists msg, last_event t = Some (EvPrint msg).

(** All calls were made and answered as expected. *)
Definition all_calls_succeeded (t : list event) : Prop :=
  existsb call_failed t = false /\
  exists req r, In (EvHttp ReadmePut req (Responded r)) t.

(** "Exit code is 0 on success and 1 on any HTTP failure or timeout, with a
    diagnostic message printed to standard output in each failure case." *)
Definition stated_exit_codes (r : result) : Prop :=
  (all_calls_succeeded (trace r) -> exit_status (final r) = 0%Z) /\
  (existsb call_failed (trace r) = true \/ timed_out (trace r) = true ->
   exit_status (final r) = 1%Z /\ diagnostic_printed (trace r)).

(** "On any non-expected HTTP status code, the script prints the status and
    response body and exits with code 1." *)
Definition stated_refusal (r : result) : Prop :=
  forall site req resp,
    In (EvHttp site req (Responded resp)) (trace r) ->
    status_ok site resp = false ->
    exit_status (final r) = 1%Z /\
    exists msg,
      In msg (printed (trace r)) /\
      contains (dec (status_code resp)) msg = true /\
      contains (text resp) msg = true.

(** "Required-environment-variable checks causing exit code 1 when unset",
    with the message and without any HTTP request. *)
Definition stated_environment_check (w : world) (r : result) : Prop :=
  environ w "NUMAPDE_GITLAB_SERVER" = None \/
  environ w "NUMAPDE_GITLAB_TOKEN" = None ->
  (In msg_server (printed (trace r)) \/ In msg_token (printed (trace r))) /\
  exit_status (final r) = 1%Z /\
  calls (trace r) = [].

(** "Correct substitution of title/URLs into the README template string": the
    committed content is the template with the placeholders replaced. *)
Definition stated_readme (w : world) (r : result) : Prop :=
  forall req res a fork newProject httpURLToRepo sshURLToRepo template,
    In (EvHttp ReadmePut req res) (trace r) ->
    parse_args parse_other (argv w) = Parsed a ->
    http w 0 = Responded fork ->
    json_loads (text fork) = Some newProject ->
    subscript newProject "http_url_to_repo" = inr httpURLToRepo ->
    subscript newProject "ssh_url_to_repo" = inr sshURLToRepo ->
    read_file w (readmePath w) = Some template ->
    dict_get (data req) "content" =
    Some (PStr (replace_placeholders (longTitle a) (str str_other httpURLToRepo)
                                     (str str_other sshURLToRepo) 0 template)).

(** "Parse arguments, then read credentials from environment": argument
    parsing comes first. *)
Definition stated_order (r : result) : Prop :=
  parsing_precedes_environment (trace r) = true.

End Stated.

(** ** Example runs

    A small Gitlab: the bodies it sends, a decoder that knows exactly these
    bodies, and a few worlds. *)
Module Demo.

Definition dq : string := String (ascii_of_nat 34) EmptyString.
Definition q (s : string) : string := dq ++ s ++ dq.

Definition ssh_url : string :=
  "git@gitlab.example.org:numapde/Publications/Riemannian-ADMM.git".
Definition http_url : string :=
  "https://gitlab.example.org/numapde/Publications/Riemannian-ADMM.git".

Definition body_fork : string :=
  "{" ++ q "id" ++ ": 77, " ++ q "ssh_url_to_repo" ++ ": " ++ q ssh_url ++ ", "
  ++ q "http_url_to_repo" ++ ": " ++ q http_url ++ "}".
Definition body_null : string := "{" ++ q "default_branch" ++ ": null}".
Definition body_main : string := "{" ++ q "default_branch" ++ ": " ++ q "main" ++ "}".
Definition body_not_found : string :=
  "{" ++ q "message" ++ ": " ++ q "404 Project Not Found" ++ "}".
Definition body_forbidden : string :=
  "{" ++ q "message" ++ ": " ++ q "Forbidden" ++ "}".
Definition body_empty : string := "{}".

Definition loads (s : string) : option pyval :=
  if String.eqb s body_fork then
    Some (PDict [("id", PInt 77); ("ssh_url_to_repo", PStr ssh_url);
                 ("http_url_to_repo", PStr http_url)])
  else if String.eqb s body_null then Some (PDict [("default_branch", PNone)])
  else if String.eqb s body_main then Some (PDict [("default_branch", PStr "main")])
  else if String.eqb s body_not_found then
    Some (PDict [("message", PStr "404 Project Not Found")])
  else if String.eqb s body_forbidden then Some (PDict [("message", PStr "Forbidden")])
  else if String.eqb s body_empty then Some (PDict [])
  else None.

(** The demo worlds stay inside the cases the model writes out, so the
    remaining library behaviour is never consulted; it is fixed to failure. *)
Definition str_other (v : pyval) : string := EmptyString.
Definition mod_other (fmt : string) (d : dict) : exn + string := inl ValueError.
Definition parse_other (argv : list string) : parse_result := ParseError.

Definition run_demo (w : world) : result := run loads str_other mod_other parse_other w.

Definition env (server token : option string) (name : string) : option string :=
  if String.eqb name "NUMAPDE_GITLAB_SERVER" then server
  else if String.eqb name "NUMAPDE_GITLAB_TOKEN" then token
  else None.

Definition template_plain : string :=
  "# %(PUBLICATION_TITLE)s" ++ nl ++ "git clone %(SSH_URL_TO_REPO)s" ++ nl
  ++ "git clone %(HTTP_URL_TO_REPO)s" ++ nl.

Definition template_percent : string :=
  "# %(PUBLICATION_TITLE)s" ++ nl ++ "100%% reproducible" ++ nl.

Definition ok (status : Z) (body : string) : http_result :=
  Responded (mk_response status body).

Definition world_of (server token : option string) (args : list string)
           (template : string) (responses : list http_result) : world :=
  mk_world (env server token)
           "bin/numapde-create-new-publication.py"
           args
           "/home/user/paper/bin"
           (fun path => if String.eqb path "/home/user/paper/bin/../README.md.in"
                        then Some template else None)
           (fun n => nth n responses Failed).

Definition titles : list string := ["ADMM on Riemannian manifolds"; "Riemannian ADMM"].
Definition server : option string := Some "gitlab.example.org".
Definition token : option string := Some "glpat-123".

(** A complete run: the project is ready at the second poll. *)
Definition w_ok : world :=
  world_of server token titles template_plain
    [ok 201 body_fork; ok 200 body_null; ok 200 body_main; ok 200 body_empty;
     ok 200 body_empty].

(** The same with a template that holds an escaped percent sign. *)
Definition w_percent : world :=
  world_of server token titles template_percent
    [ok 201 body_fork; ok 200 body_main; ok 200 body_empty; ok 200 body_empty].

(** The default branch never appears. *)
Definition w_timeout : world :=
  world_of server token titles template_plain
    [ok 201 body_fork; ok 200 body_null; ok 200 body_null; ok 200 body_null;
     ok 200 body_null; ok 200 body_null; ok 200 body_null].

(** Missing environment variables, with and without a valid command line. *)
Definition w_no_server : world := world_of None token titles template_plain [].
Definition w_no_token : world := world_of server None titles template_plain [].
Definition w_no_token_no_args : world := world_of server None [] template_plain [].
Definition w_no_server_no_args : world := world_of None token [] template_plain [].

(** Requests that are refused. *)
Definition w_fork_refused : world :=
  world_of server token titles template_plain [ok 409 body_forbidden].
Definition w_description_refused : world :=
  world_of server token titles template_plain
    [ok 201 body_fork; ok 200 body_main; ok 403 body_forbidden].
Definition w_readme_refused : world :=
  world_of server token titles template_plain
    [ok 201 body_fork; ok 200 body_main; ok 200 body_empty; ok 400 body_forbidden].
Definition w_poll_not_found : world :=
  world_of server token titles template_plain
    [ok 201 body_fork; ok 404 body_not_found].
Definition w_poll_error_with_project : world :=
  world_of server token titles template_plain
    [ok 201 body_fork; ok 500 body_main; ok 200 body_empty; ok 200 body_empty].
Definition w_no_connection : world :=
  world_of server token titles template_plain [].

(** What the script sends in these worlds. *)
Definition demo_args : args :=
  mk_args "ADMM on Riemannian manifolds" "Riemannian ADMM"
          (Some default_namespace) (Some default_description).
Definition req_fork : request :=
  mk_request POST "https://gitlab.example.org/api/v4/projects/5326/fork"
             (auth "glpat-123") (fork_payload demo_args).
Definition req_poll : request :=
  mk_request GET "https://gitlab.example.org/api/v4/projects/77" (auth "glpat-123") [].
Definition req_description : request :=
  mk_request PUT "https://gitlab.example.org/api/v4/projects/77" (auth "glpat-123")
             (description_payload (PInt 77) demo_args).

(** Options given without a value. *)
Definition w_bare_namespace : world :=
  world_of server token (titles ++ ["--namespace"])%list template_plain
    [ok 201 body_fork; ok 200 body_main; ok 200 body_empty; ok 200 body_empty].
Definition w_bare_description : world :=
  world_of server token (titles ++ ["--description"; "--namespace"; "numapde/Sandbox"])%list
    template_plain
    [ok 201 body_fork; ok 200 body_main; ok 200 body_empty; ok 200 body_empty].

End Demo.



(** ** More readings of a trace *)

















(** ** More example runs *)
Module Cases.

Import Demo.









End Cases.

(** * Properties *)

Local Open Scope list_scope.

(** ** Symbolic execution of the script *)

Ltac exec_unfold :=
  cbv beta iota zeta delta
    [run script bind ret emit stop print sys_exit raise time_sleep try
     os_environ_get parser_parse_args send loads read];
  cbn [app trace final].

Ltac unfold_pymod := unfold pymod.
Ltac unfold_parse_args_in H := unfold parse_args in H.

Section Properties.

Variable json_loads : string -> option pyval.
Variable str_other : pyval -> string.
Variable mod_other : string -> dict -> exn + string.
Variable parse_other : list string -> parse_result.

#[local] Abbreviation run := (run json_loads str_other mod_other parse_other) (only parsing).
#[local] Abbreviation parse_args := (parse_args parse_other) (only parsing).
#[local] Abbreviation pymod := (pymod str_other mod_other) (only parsing).

Ltac exec_step :=
  match goal with
  | |- context [match ?x with _ => _ end] =>
      lazymatch x with
      | context [match _ with _ => _ end] => fail
      | _ => destruct x eqn:?
      end
  end; exec_unfold.

Ltac exec := exec_unfold; repeat exec_step.

(** ** The polling loop *)

Lemma removelast_cons {A} (x : A) (l : list A) :
  l <> [] -> removelast (x :: l) = x :: removelast l.
Proof. destruct l; [congruence | reflexivity]. Qed.

Lemma last_cons {A} (x d : A) (l : list A) :
  l <> [] -> last (x :: l) d = last l d.
Proof. destruct l; [congruence | reflexivity]. Qed.

Lemma last_info_cons res info results projInfo :
  body_of json_loads res = Some info ->
  last_info json_loads projInfo (res :: results) = last_info json_loads info results.
Proof. intros H. destruct results; simpl; auto. Qed.

Lemma last_null_cons res info results projInfo :
  body_of json_loads res = Some info ->
  last_null json_loads projInfo (res :: results) = last_null json_loads info results.
Proof.
  intros H. unfold last_null. now rewrite (last_info_cons _ _ _ _ H).
Qed.

Lemma null_result_body res info :
  body_of json_loads res = Some info -> null_result json_loads res = branch_null info.
Proof. intros H. unfold null_result. now rewrite H. Qed.

Lemma poll_spec w newUrl hdrs :
  forall nWaitMax projInfo n t n' r,
    poll json_loads w newUrl hdrs nWaitMax projInfo n = (t, n', r) ->
    exists results,
      t = retries (mk_request GET newUrl hdrs []) results /\
      length results <= nWaitMax /\
      n' = n + length results /\
      (results <> [] -> branch_null projInfo = true) /\
      Forall (fun res => null_result json_loads res = true) (removelast results) /\
      match r with
      | inl o => (exists e, o = Uncaught e) /\ last_null json_loads projInfo results = false
      | inr info =>
          last_info json_loads projInfo results = Some info /\
          (branch_null info = true -> length results = nWaitMax) /\
          (exists v, subscript info "default_branch" = inr v)
      end.
Proof.
  induction nWaitMax as [|k IH]; intros projInfo n t n' r H.
  - exists []. simpl in H. revert H. exec.
    all: intros H; inversion H; subst; clear H.
    all: unfold last_null, last_info, branch_null; cbn; rewrite ?Heqs.
    all: repeat split; auto; try lia; try congruence; eauto.
  - simpl in H. revert H. exec_unfold.
    destruct (subscript projInfo "default_branch") as [e|v] eqn:Hs; exec_unfold.
    { intros H; inversion H; subst; clear H. exists [].
      unfold last_null, last_info, branch_null; cbn; rewrite Hs.
      repeat split; auto; try lia; try congruence; eauto. }
    destruct (is_None v) eqn:Hv; exec_unfold.
    2:{ intros H; inversion H; subst; clear H. exists [].
        unfold last_info, branch_null; cbn; rewrite Hs.
        repeat split; auto; try lia; try congruence; eauto. }
    assert (Hnull : branch_null projInfo = true)
      by (unfold branch_null; now rewrite Hs).
    destruct (http w n) as [r0|] eqn:Hh; exec_unfold.
    2:{ intros H; inversion H; subst; clear H. exists [Failed].
        cbn. repeat split; auto; try lia; eauto. }
    destruct (json_loads (text r0)) as [info|] eqn:Hj; exec_unfold.
    2:{ intros H; inversion H; subst; clear H. exists [Responded r0].
        unfold last_null, last_info; cbn. rewrite Hj.
        repeat split; auto; try lia; eauto. }
    assert (Hbody : body_of json_loads (Responded r0) = Some info) by exact Hj.
    destruct (poll json_loads w newUrl hdrs k info (S n))
      as [[t2 n2] r2] eqn:Hp.
    intros H; inversion H; subst; clear H.
    apply IH in Hp. destruct Hp as (results & -> & Hlen & -> & Hnz & Hall & Hr).
    exists (Responded r0 :: results).
    split; [reflexivity|]. split; [simpl; lia|]. split; [simpl; lia|].
    split; [auto|]. split.
    { destruct results as [|x xs]; [constructor|].
      rewrite removelast_cons by congruence. constructor; [|exact Hall].
      rewrite (null_result_body _ _ Hbody). apply Hnz. congruence. }
    destruct r as [o|info'].
    + rewrite (last_null_cons _ _ _ _ Hbody). exact Hr.
    + rewrite (last_info_cons _ _ _ _ Hbody).
      destruct Hr as (Hi & Hb & Hv'). repeat split; auto.
      intros Hb'. simpl. f_equal. auto.
Qed.

Lemma in_retries e req results :
  In e (retries req results) ->
  e = EvSleep nWaitTime \/ exists res, In res results /\ e = EvHttp PollRetry req res.
Proof.
  induction results as [|r rs IH]; simpl; [tauto|].
  intros [<-|[<-|H]]; [now left | right; eauto |].
  destruct (IH H) as [->|(res & Hin & ->)]; [now left | right; eauto].
Qed.


(** Membership in a trace the script has produced: a known prefix, the rounds
    of the loop, a known suffix. *)
Ltac in_trace H :=
  repeat first
    [ contradiction H
    | apply in_retries in H; destruct H as [H|(? & _ & H)]; discriminate H
    | apply in_app_or in H;
      destruct H as [H|H];
      [apply in_retries in H; destruct H as [H|(? & _ & H)]; discriminate H|]
    | destruct H as [H|H]; [first [discriminate H | inversion H; subst; clear H]|] ].

Ltac use_poll_spec :=
  try match goal with
      | Hp : poll _ _ _ _ _ _ _ = _ |- _ =>
          apply poll_spec in Hp;
          destruct Hp as (results & -> & Hlen & -> & Hnz & Hall & Hr)
      end.


Lemma null_last_cons res info results :
  body_of json_loads res = Some info ->
  null_result json_loads (last (res :: results) Failed) = last_null json_loads info results.
Proof.
  intros H. unfold last_null, last_info.
  destruct results as [|x xs].
  - simpl. apply null_result_body, H.
  - rewrite last_cons by congruence. reflexivity.
Qed.

Lemma all_null_cons res info results :
  body_of json_loads res = Some info ->
  (results <> [] -> branch_null info = true) ->
  Forall (fun r => null_result json_loads r = true) (removelast results) ->
  Forall (fun r => null_result json_loads r = true) (removelast (res :: results)).
Proof.
  intros Hb Hnz Hall. destruct results as [|x xs]; [constructor|].
  rewrite removelast_cons by congruence. constructor; [|exact Hall].
  rewrite (null_result_body _ _ Hb). apply Hnz. congruence.
Qed.

(** The first six events are known once the poll has started; what follows
    the first GET is named by its shape. *)
Ltac poll_witnesses :=
  match goal with
  | |- context [EvHttp PollGet _ _ :: ?tail] =>
      lazymatch tail with
      | retries _ ?rs ++ ?post => exists rs, post
      | retries _ ?rs => exists rs, (@nil event); rewrite (app_nil_r (retries _ rs))
      | [] => exists (@nil http_result), (@nil event)
      end
  end.

Lemma polled_run w req res :
  In (EvHttp PollGet req res) (trace (run w)) ->
  exists results post server a token u r newProject newId newUrl,
    environ w "NUMAPDE_GITLAB_SERVER" = Some server /\
    parse_args (argv w) = Parsed a /\
    environ w "NUMAPDE_GITLAB_TOKEN" = Some token /\
    pymod (urlFormat server) [("projectId", PInt templateId)] = inr u /\
    http w 0 = Responded r /\
    status_code r = POST_OK /\
    json_loads (text r) = Some newProject /\
    subscript newProject "id" = inr newId /\
    pymod (urlFormat server) [("projectId", newId)] = inr newUrl /\
    req = mk_request GET newUrl (auth token) [] /\
    res = http w 1 /\
    trace (run w) =
      fork_events str_other w server token u a r
      ++ EvHttp PollGet req res :: retries req results ++ post /\
    length results <= 5 /\
    Forall (fun r => null_result json_loads r = true) (removelast (res :: results)) /\
    existsb is_poll_event post = false /\
    (null_result json_loads (last (res :: results) Failed) = true ->
     length results = 5 /\
     post = [EvPrint (msg_timeout str_other server (namespace a))] /\
     final (run w) = SysExit 1).
Proof.
  exec; use_poll_spec; intros H; in_trace H.
  all: try match goal with
           | Hj : json_loads (text ?r0) = Some ?p, Hh : http _ 1 = Responded ?r0 |- _ =>
               assert (Hbody : body_of json_loads (Responded r0) = Some p) by exact Hj
           end.
  all: poll_witnesses.
  all: do 8 eexists.
  all: repeat match goal with |- _ /\ _ => split end.
  all: first [ reflexivity | eassumption | apply Z.eqb_eq; assumption
             | simpl; lia | idtac ].
  all: try (eapply all_null_cons; eassumption).
  all: try (constructor; fail).
  all: try rewrite (null_last_cons _ _ _ Hbody).
  all: intros Hnull.
  all: try (destruct Hr as (_ & Hr); congruence).
  all: try (destruct Hr as (Hi & Hb & _);
            unfold last_null in Hnull; rewrite Hi in Hnull;
            pose proof (Hb Hnull) as Hfive;
            unfold branch_null in Hnull;
            match goal with
            | Hs : subscript _ "default_branch" = _ |- _ => rewrite Hs in Hnull
            end;
            first [ discriminate Hnull | congruence | repeat split; assumption ]).
  all: cbn in Hnull; unfold null_result, body_of in Hnull;
       try match goal with
           | Hj : json_loads _ = None |- _ => rewrite Hj in Hnull
           end;
       discriminate Hnull.
Qed.

Lemma completed_run w :
  final (run w) = Completed ->
  exists results server a token u r newProject newId newUrl res rd template
         sshURL httpURL readme rr,
    environ w "NUMAPDE_GITLAB_SERVER" = Some server /\
    parse_args (argv w) = Parsed a /\
    environ w "NUMAPDE_GITLAB_TOKEN" = Some token /\
    pymod (urlFormat server) [("projectId", PInt templateId)] = inr u /\
    http w 0 = Responded r /\
    status_code r = POST_OK /\
    json_loads (text r) = Some newProject /\
    subscript newProject "id" = inr newId /\
    pymod (urlFormat server) [("projectId", newId)] = inr newUrl /\
    http w 1 = res /\
    length results <= 5 /\
    null_result json_loads (last (res :: results) Failed) = false /\
    status_code rd = PUT_OK /\
    read_file w (readmePath w) = Some template /\
    subscript newProject "ssh_url_to_repo" = inr sshURL /\
    subscript newProject "http_url_to_repo" = inr httpURL /\
    pymod template (readme_dict a httpURL sshURL) = inr readme /\
    status_code rr = PUT_OK /\
    trace (run w) =
      fork_events str_other w server token u a r
      ++ EvHttp PollGet (mk_request GET newUrl (auth token) []) res
      :: retries (mk_request GET newUrl (auth token) []) results
      ++ commit_events str_other w token newUrl newId a rd readme rr sshURL.
Proof.
  exec; use_poll_spec; intros H; try discriminate H.
  { destruct Hr as ((e & ->) & _). discriminate H. }
  match goal with
  | Hj : json_loads (text ?r0) = Some ?p, Hh : http _ 1 = Responded ?r0 |- _ =>
      assert (Hbody : body_of json_loads (Responded r0) = Some p) by exact Hj
  end.
  exists results. do 15 eexists.
  repeat match goal with |- _ /\ _ => split end.
  all: first [ reflexivity | eassumption | apply Z.eqb_eq; assumption | idtac ].
  rewrite (null_last_cons _ _ _ Hbody).
  destruct Hr as (Hi & _ & _). unfold last_null. rewrite Hi.
  unfold branch_null.
  match goal with
  | Hs : subscript _ "default_branch" = _ |- _ => rewrite Hs
  end.
  assumption.
  all: apply Z.eqb_eq; assumption.
Qed.

(** ** Strings *)

Lemma append_nil_r (s : string) : (s ++ "")%string = s.
Proof. induction s; simpl; congruence. Qed.

Lemma append_assoc (a b c : string) : ((a ++ b) ++ c)%string = (a ++ (b ++ c))%string.
Proof. induction a; simpl; congruence. Qed.

Lemma starts_with_app (p s : string) :
  starts_with p s = true -> exists rest, s = (p ++ rest)%string.
Proof.
  revert s. induction p as [|c p IH]; intros s H.
  - exists s. reflexivity.
  - destruct s as [|d s]; simpl in H; [discriminate|].
    apply andb_prop in H as [Hc Hp]. apply Ascii.eqb_eq in Hc as ->.
    destruct (IH _ Hp) as (rest & ->). exists rest. reflexivity.
Qed.

Lemma replace_length old new s :
  String.length (replace old new s) = String.length s.
Proof. induction s; simpl; congruence. Qed.

Lemma replace_get old new s i :
  String.get i (replace old new s) =
  option_map (fun c => if Ascii.eqb c old then new else c) (String.get i s).
Proof.
  revert i. induction s as [|c s IH]; intros i; simpl; [reflexivity|].
  destruct i; simpl; [reflexivity | apply IH].
Qed.

(** ** The [%] operator on the strings the script formats *)

Lemma fmt_scan_literal d s : forall out rest,
  no_percent s = true ->
  fmt_scan str_other d FLit out (s ++ rest)%string = fmt_scan str_other d FLit (out ++ s)%string rest.
Proof.
  induction s as [|c s IH]; intros out rest H; simpl.
  - now rewrite append_nil_r.
  - simpl in H. apply andb_prop in H as [Hc Hs].
    apply negb_true_iff in Hc. rewrite Hc.
    rewrite IH by assumption. now rewrite append_assoc.
Qed.

(** With a server name free of [%], the project URL is what it looks like. *)
Lemma project_url server z :
  no_percent server = true ->
  pymod (urlFormat server) [("projectId", PInt z)] =
  inr ("https://" ++ server ++ "/api/v4/projects/" ++ dec z)%string.
Proof.
  intros H. unfold_pymod; unfold urlFormat.
  change ("https://" ++ server ++ "/api/v4/projects/%(projectId)d")%string
    with ("https://" ++ (server ++ ("/api/v4/projects/" ++ "%(projectId)d")))%string.
  rewrite (fmt_scan_literal _ "https://") by reflexivity.
  rewrite (fmt_scan_literal _ server) by assumption.
  rewrite (fmt_scan_literal _ "/api/v4/projects/") by reflexivity.
  assert (Hout : forall out,
             fmt_scan str_other [("projectId", PInt z)] FLit out "%(projectId)d"
             = Some (inr (out ++ dec z)%string)).
  { intros out. reflexivity. }
  rewrite Hout. cbn [String.append]. rewrite !append_assoc. reflexivity.
Qed.


(** *** The README template *)

Section Template.

Variables (a : args) (httpURL sshURL : pyval).

#[local] Abbreviation d := (readme_dict a httpURL sshURL) (only parsing).
#[local] Abbreviation subst :=
  (replace_placeholders (longTitle a) (str str_other httpURL) (str str_other sshURL))
  (only parsing).

Lemma scan_title out rest :
  fmt_scan str_other d FLit out (PH_TITLE ++ rest)%string
  = fmt_scan str_other d FLit (out ++ longTitle a)%string rest.
Proof. reflexivity. Qed.

Lemma scan_http out rest :
  fmt_scan str_other d FLit out (PH_HTTP ++ rest)%string
  = fmt_scan str_other d FLit (out ++ str str_other httpURL)%string rest.
Proof. reflexivity. Qed.

Lemma scan_ssh out rest :
  fmt_scan str_other d FLit out (PH_SSH ++ rest)%string
  = fmt_scan str_other d FLit (out ++ str str_other sshURL)%string rest.
Proof. reflexivity. Qed.

Lemma subst_title rest :
  subst 0 (PH_TITLE ++ rest)%string = (longTitle a ++ subst 0 rest)%string.
Proof. reflexivity. Qed.

Lemma subst_http rest :
  subst 0 (PH_HTTP ++ rest)%string = (str str_other httpURL ++ subst 0 rest)%string.
Proof. reflexivity. Qed.

Lemma subst_ssh rest :
  subst 0 (PH_SSH ++ rest)%string = (str str_other sshURL ++ subst 0 rest)%string.
Proof. reflexivity. Qed.

Lemma only_title rest :
  only_placeholders 0 (PH_TITLE ++ rest)%string = only_placeholders 0 rest.
Proof. reflexivity. Qed.

Lemma only_http rest :
  only_placeholders 0 (PH_HTTP ++ rest)%string = only_placeholders 0 rest.
Proof. reflexivity. Qed.

Lemma only_ssh rest :
  only_placeholders 0 (PH_SSH ++ rest)%string = only_placeholders 0 rest.
Proof. reflexivity. Qed.

Lemma length_append (s1 s2 : string) :
  String.length (s1 ++ s2)%string = String.length s1 + String.length s2.
Proof. induction s1; simpl; congruence. Qed.

Lemma scan_only_placeholders : forall n template out,
  String.length template <= n ->
  only_placeholders 0 template = true ->
  fmt_scan str_other d FLit out template = Some (inr (out ++ subst 0 template)%string).
Proof.
  induction n as [|n IH]; intros template out Hlen Honly.
  - destruct template; [|simpl in Hlen; lia]. simpl. now rewrite append_nil_r.
  - destruct template as [|c rest]; [simpl; now rewrite append_nil_r|].
    destruct (starts_with PH_TITLE (String c rest)) eqn:E1.
    { apply starts_with_app in E1 as (rest' & E). rewrite E in *.
      rewrite only_title in Honly. rewrite scan_title, subst_title.
      rewrite IH; [now rewrite append_assoc | | assumption].
      rewrite length_append in Hlen. simpl in Hlen. lia. }
    destruct (starts_with PH_HTTP (String c rest)) eqn:E2.
    { apply starts_with_app in E2 as (rest' & E). rewrite E in *.
      rewrite only_http in Honly. rewrite scan_http, subst_http.
      rewrite IH; [now rewrite append_assoc | | assumption].
      rewrite length_append in Hlen. simpl in Hlen. lia. }
    destruct (starts_with PH_SSH (String c rest)) eqn:E3.
    { apply starts_with_app in E3 as (rest' & E). rewrite E in *.
      rewrite only_ssh in Honly. rewrite scan_ssh, subst_ssh.
      rewrite IH; [now rewrite append_assoc | | assumption].
      rewrite length_append in Hlen. simpl in Hlen. lia. }
    assert (Hstep : only_placeholders 0 (String c rest)
                    = negb (Ascii.eqb c "%") && only_placeholders 0 rest).
    { change (only_placeholders 0 (String c rest))
        with (if starts_with PH_TITLE (String c rest)
              then only_placeholders (String.length PH_TITLE - 1) rest
              else if starts_with PH_HTTP (String c rest)
              then only_placeholders (String.length PH_HTTP - 1) rest
              else if starts_with PH_SSH (String c rest)
              then only_placeholders (String.length PH_SSH - 1) rest
              else negb (Ascii.eqb c "%") && only_placeholders 0 rest).
      now rewrite E1, E2, E3. }
    assert (Hsub : subst 0 (String c rest) = String c (subst 0 rest)).
    { change (replace_placeholders (longTitle a) (str str_other httpURL)
                (str str_other sshURL) 0 (String c rest))
        with (if starts_with PH_TITLE (String c rest)
              then (longTitle a ++ subst (String.length PH_TITLE - 1) rest)%string
              else if starts_with PH_HTTP (String c rest)
              then (str str_other httpURL ++ subst (String.length PH_HTTP - 1) rest)%string
              else if starts_with PH_SSH (String c rest)
              then (str str_other sshURL ++ subst (String.length PH_SSH - 1) rest)%string
              else String c (subst 0 rest)).
      now rewrite E1, E2, E3. }
    rewrite Hstep in Honly. apply andb_prop in Honly as [Hc Hrest].
    apply negb_true_iff in Hc.
    rewrite Hsub. cbn [fmt_scan]. rewrite Hc.
    rewrite IH; [| simpl in Hlen; lia | assumption].
    now rewrite append_assoc.
Qed.

Lemma pymod_only_placeholders template :
  only_placeholders 0 template = true ->
  pymod template d = inr (subst 0 template).
Proof.
  intros H. unfold_pymod.
  now rewrite (scan_only_placeholders _ template "" (Nat.le_refl _) H).
Qed.

End Template.

(** ** The command line *)

Lemma classify_namespace x : classify x = Some ANamespace -> x = "--namespace"%string.
Proof.
  unfold classify. destruct (String.eqb x "--namespace") eqn:E.
  - intros _. now apply String.eqb_eq.
  - destruct (String.eqb x "--description"); [discriminate|].
    destruct x as [|c x]; [discriminate|]. destruct (Ascii.eqb c "-"); discriminate.
Qed.

Lemma classify_description x : classify x = Some ADescription -> x = "--description"%string.
Proof.
  unfold classify. destruct (String.eqb x "--namespace") eqn:E; [discriminate|].
  destruct (String.eqb x "--description") eqn:E'.
  - intros _. now apply String.eqb_eq.
  - destruct x as [|c x]; [discriminate|]. destruct (Ascii.eqb c "-"); discriminate.
Qed.

(** An option that does not occur leaves its attribute as it was. *)
Lemma consume_keeps : forall n l pos ns desc a,
  length l <= n ->
  consume l pos ns desc = Parsed a ->
  (existsb (String.eqb "--namespace") l = false -> namespace a = ns) /\
  (existsb (String.eqb "--description") l = false -> description a = desc).
Proof.
  induction n as [|n IH]; intros l pos ns desc a Hlen H.
  - destruct l; [|simpl in Hlen; lia]. simpl in H.
    destruct pos as [|? [|? [|]]]; try discriminate. now inversion H.
  - destruct l as [|x rest].
    { simpl in H. destruct pos as [|? [|? [|]]]; try discriminate. now inversion H. }
    simpl in Hlen. apply le_S_n in Hlen. cbn [consume] in H. cbn [existsb].
    destruct (classify x) as [[| |]|] eqn:Hx; [| | |discriminate].
    + destruct (Nat.ltb (length pos) 2); [|discriminate].
      destruct (IH rest _ _ _ _ Hlen H) as [H1 H2].
      split; intros E; apply orb_false_elim in E as [_ E]; auto.
    + apply classify_namespace in Hx as ->.
      split; [cbn; discriminate|].
      intros E. apply orb_false_elim in E as [_ E].
      destruct rest as [|v rest'].
      * apply (IH [] _ _ _ _ Hlen H). exact E.
      * destruct (is_positional v).
        -- cbn [existsb] in E. apply orb_false_elim in E as [_ E].
           simpl in Hlen. apply (IH rest' _ _ _ _ ltac:(lia) H). exact E.
        -- apply (IH (v :: rest') _ _ _ _ Hlen H). exact E.
    + apply classify_description in Hx as ->.
      split; [|cbn; discriminate].
      intros E. apply orb_false_elim in E as [_ E].
      destruct rest as [|v rest'].
      * apply (IH [] _ _ _ _ Hlen H). exact E.
      * destruct (is_positional v).
        -- cbn [existsb] in E. apply orb_false_elim in E as [_ E].
           simpl in Hlen. apply (IH rest' _ _ _ _ ltac:(lia) H). exact E.
        -- apply (IH (v :: rest') _ _ _ _ Hlen H). exact E.
Qed.

(** An option with nothing after it that could be its value gives [None]. *)
Lemma consume_bare : forall n pre pos ns desc post a,
  length pre <= n ->
  no_value_follows post = true ->
  (consume (pre ++ "--namespace"%string :: post) pos ns desc = Parsed a ->
   existsb (String.eqb "--namespace") post = false -> namespace a = None) /\
  (consume (pre ++ "--description"%string :: post) pos ns desc = Parsed a ->
   existsb (String.eqb "--description") post = false -> description a = None).
Proof.
  assert (Hbase : forall pos ns desc post a,
             no_value_follows post = true ->
             (consume ("--namespace"%string :: post) pos ns desc = Parsed a ->
              existsb (String.eqb "--namespace") post = false -> namespace a = None) /\
             (consume ("--description"%string :: post) pos ns desc = Parsed a ->
              existsb (String.eqb "--description") post = false -> description a = None)).
  { intros pos ns desc post a Hbare. split; intros H E.
    - cbn [consume] in H. change (classify "--namespace") with (Some ANamespace) in H.
      cbv iota in H. destruct post as [|v rest].
      + apply (consume_keeps _ _ _ _ _ _ (Nat.le_refl _) H). exact E.
      + simpl in Hbare. apply negb_true_iff in Hbare. rewrite Hbare in H.
        apply (consume_keeps _ _ _ _ _ _ (Nat.le_refl _) H). exact E.
    - cbn [consume] in H. change (classify "--description") with (Some ADescription) in H.
      cbv iota in H. destruct post as [|v rest].
      + apply (consume_keeps _ _ _ _ _ _ (Nat.le_refl _) H). exact E.
      + simpl in Hbare. apply negb_true_iff in Hbare. rewrite Hbare in H.
        apply (consume_keeps _ _ _ _ _ _ (Nat.le_refl _) H). exact E. }
  induction n as [|n IH]; intros pre pos ns desc post a Hlen Hbare.
  - destruct pre; [|simpl in Hlen; lia]. apply Hbase, Hbare.
  - destruct pre as [|x pre']; [apply Hbase, Hbare|].
    simpl in Hlen. cbn [app consume].
    destruct (classify x) as [[| |]|] eqn:Hx.
    + destruct (Nat.ltb (length pos) 2); [|split; discriminate].
      apply IH; [lia | assumption].
    + destruct pre' as [|v pre'']; cbn [app].
      * change (is_positional "--namespace") with false.
        change (is_positional "--description") with false.
        apply (IH []); [simpl; lia | assumption].
      * destruct (is_positional v).
        -- apply IH; [simpl in Hlen; lia | assumption].
        -- apply (IH (v :: pre'')); [simpl in *; lia | assumption].
    + destruct pre' as [|v pre'']; cbn [app].
      * change (is_positional "--namespace") with false.
        change (is_positional "--description") with false.
        apply (IH []); [simpl; lia | assumption].
      * destruct (is_positional v).
        -- apply IH; [simpl in Hlen; lia | assumption].
        -- apply (IH (v :: pre'')); [simpl in *; lia | assumption].
    + split; discriminate.
Qed.

(** ** Reading traces *)

Lemma calls_app t1 t2 : calls (t1 ++ t2) = calls t1 ++ calls t2.
Proof.
  induction t1 as [|e t1 IH]; [reflexivity|].
  destruct e; simpl; rewrite IH; reflexivity.
Qed.

Lemma calls_retries req results :
  calls (retries req results) = repeat (PollRetry, method req, url req) (length results).
Proof. induction results; simpl; congruence. Qed.

Lemma poll_results_app t1 t2 :
  poll_results (t1 ++ t2) = poll_results t1 ++ poll_results t2.
Proof.
  induction t1 as [|e t1 IH]; [reflexivity|].
  destruct e as [| | |[] ? ?| |]; simpl; rewrite IH; reflexivity.
Qed.

Lemma poll_results_retries req results : poll_results (retries req results) = results.
Proof. induction results; simpl; congruence. Qed.

Lemma poll_results_none t : existsb is_poll_event t = false -> poll_results t = [].
Proof.
  induction t as [|e t IH]; [reflexivity|].
  destruct e as [| | |[] ? ?| |]; simpl; try discriminate; exact IH.
Qed.

Lemma last_event_app t post :
  post <> [] -> last_event (t ++ post) = last_event post.
Proof.
  intros H. unfold last_event. rewrite map_app.
  destruct post as [|e post]; [congruence|].
  induction t as [|x t IH]; [reflexivity|].
  simpl app. rewrite last_cons; [exact IH|].
  destruct t; discriminate.
Qed.

(** The last event of a trace the script has produced. *)
Ltac last_ev :=
  unfold fork_events; cbn [app];
  first [ reflexivity
        | rewrite !app_comm_cons; rewrite last_event_app by discriminate; reflexivity ].

(** ** What the requests carry *)

Ltac facts :=
  repeat match goal with |- _ /\ _ => split end;
  first [ reflexivity | eassumption | apply Z.eqb_eq; assumption ].


Lemma fork_request w req res :
  In (EvHttp ForkPost req res) (trace (run w)) ->
  exists server a token u,
    environ w "NUMAPDE_GITLAB_SERVER" = Some server /\
    parse_args (argv w) = Parsed a /\
    environ w "NUMAPDE_GITLAB_TOKEN" = Some token /\
    pymod (urlFormat server) [("projectId", PInt templateId)] = inr u /\
    req = mk_request POST (u ++ "/fork") (auth token) (fork_payload a) /\
    res = http w 0.
Proof.
  exec; use_poll_spec; intros H; in_trace H.
  all: do 4 eexists; facts.
Qed.

Lemma description_request w req res :
  In (EvHttp DescriptionPut req res) (trace (run w)) ->
  exists a token newId newUrl,
    parse_args (argv w) = Parsed a /\
    req = mk_request PUT newUrl (auth token) (description_payload newId a).
Proof.
  exec; use_poll_spec; intros H; in_trace H.
  all: do 4 eexists; facts.
Qed.

Lemma readme_request w req res :
  In (EvHttp ReadmePut req res) (trace (run w)) ->
  exists a token fork newProject newUrl template httpURL sshURL readme,
    parse_args (argv w) = Parsed a /\
    http w 0 = Responded fork /\
    json_loads (text fork) = Some newProject /\
    subscript newProject "http_url_to_repo" = inr httpURL /\
    subscript newProject "ssh_url_to_repo" = inr sshURL /\
    read_file w (readmePath w) = Some template /\
    pymod template (readme_dict a httpURL sshURL) = inr readme /\
    req = mk_request PUT (newUrl ++ "/repository/files/README.md") (auth token)
                     (readme_payload w readme).
Proof.
  exec; use_poll_spec; intros H; in_trace H.
  all: do 9 eexists; facts.
Qed.

(** ** Refused requests *)

Lemma fork_refused w req r :
  In (EvHttp ForkPost req (Responded r)) (trace (run w)) ->
  status_code r <> POST_OK ->
  final (run w) = SysExit 1 /\
  last_event (trace (run w)) = Some (EvPrint (msg_fork (status_code r) (text r))).
Proof.
  exec; use_poll_spec; intros H Hne; in_trace H.
  all: try match goal with
           | Hb : (status_code _ =? _)%Z = true |- _ =>
               apply Z.eqb_eq in Hb; contradiction
           end.
  all: split; [reflexivity | last_ev].
Qed.

Lemma description_refused w req r :
  In (EvHttp DescriptionPut req (Responded r)) (trace (run w)) ->
  status_code r <> PUT_OK ->
  final (run w) = SysExit 1 /\
  last_event (trace (run w)) = Some (EvPrint (msg_description (text r))).
Proof.
  exec; use_poll_spec; intros H Hne; in_trace H.
  all: try match goal with
           | Hb : (status_code _ =? _)%Z = true |- _ =>
               apply Z.eqb_eq in Hb; contradiction
           end.
  all: split; [reflexivity | last_ev].
Qed.

Lemma readme_refused w req r :
  In (EvHttp ReadmePut req (Responded r)) (trace (run w)) ->
  status_code r <> PUT_OK ->
  final (run w) = SysExit 1 /\
  last_event (trace (run w)) = Some (EvPrint (msg_readme (text r))).
Proof.
  exec; use_poll_spec; intros H Hne; in_trace H.
  all: try match goal with
           | Hb : (status_code _ =? _)%Z = true |- _ =>
               apply Z.eqb_eq in Hb; contradiction
           end.
  all: split; [reflexivity | last_ev].
Qed.

Lemma readme_accepted w req r :
  In (EvHttp ReadmePut req (Responded r)) (trace (run w)) ->
  status_code r = PUT_OK ->
  final (run w) = Completed.
Proof.
  exec; use_poll_spec; intros H He; in_trace H.
  all: try reflexivity.
  all: match goal with
       | Hb : (status_code _ =? _)%Z = false |- _ =>
           apply Z.eqb_neq in Hb; contradiction
       end.
Qed.

Lemma polled_or_not w :
  poll_results (trace (run w)) = [] \/
  exists req res, In (EvHttp PollGet req res) (trace (run w)).
Proof.
  exec; use_poll_spec.
  all: first [ left; reflexivity | right; do 2 eexists; simpl; eauto 10 ].
Qed.

Lemma starts_with_append (x b : string) : starts_with x (x ++ b) = true.
Proof. induction x as [|c x IH]; simpl; [reflexivity|]. now rewrite Ascii.eqb_refl. Qed.

Lemma contains_starts (x h : string) : starts_with x h = true -> contains x h = true.
Proof. intros H. destruct h; simpl; rewrite H; reflexivity. Qed.

Lemma contains_append (a x b : string) : contains x (a ++ x ++ b) = true.
Proof.
  induction a as [|c a IH]; simpl.
  - apply contains_starts, starts_with_append.
  - rewrite IH. apply orb_true_r.
Qed.

(** ** The sentences of the specification *)

(** C1. After a successful fork the script polls the new project: one GET on
    the project URL built from the [id] of the fork's answer (with a server
    name free of [%], [https://<server>/api/v4/projects/<id>]), then at most
    five rounds of the loop, each a sleep of two seconds followed by a GET on
    the same URL. A round is run only after an answer whose [default_branch]
    is null; nothing else polls or sleeps. When the last answer received
    still has a null [default_branch], five rounds have been run, the script
    prints the timeout message as its last action and exits with status 1. *)
Theorem poll_loop_bounded w req res :
  In (EvHttp PollGet req res) (trace (run w)) ->
  exists pre results post server a,
    trace (run w) = pre ++ EvHttp PollGet req res :: retries req results ++ post /\
    retries req results
    = flat_map (fun r => [EvSleep 2; EvHttp PollRetry req r]) results /\
    existsb is_poll_event (pre ++ post) = false /\
    (exists fork r newProject newId newUrl,
        In (EvHttp ForkPost fork (Responded r)) pre /\ status_code r = POST_OK /\
        http w 0 = Responded r /\
        json_loads (text r) = Some newProject /\
        subscript newProject "id" = inr newId /\
        pymod (urlFormat server) [("projectId", newId)] = inr newUrl /\
        url req = newUrl /\
        (no_percent server = true ->
         forall z, newId = PInt z ->
                   url req = ("https://" ++ server ++ "/api/v4/projects/" ++ dec z)%string)) /\
    method req = GET /\
    length results <= 5 /\
    Forall (fun r => null_result json_loads r = true) (removelast (res :: results)) /\
    environ w "NUMAPDE_GITLAB_SERVER" = Some server /\
    parse_args (argv w) = Parsed a /\
    (null_result json_loads (last (res :: results) Failed) = true ->
     length results = 5 /\
     post = [EvPrint (msg_timeout str_other server (namespace a))] /\
     final (run w) = SysExit 1 /\
     exit_status (final (run w)) = 1%Z).
Proof.
  intros H.
  destruct (polled_run w req res H)
    as (results & post & server & a & token & u & r & newProject & newId & newUrl
        & Hs & Ha & _ & _ & Hh & Hr & Hj & Hid & Hn & Hreq & _ & Ht & Hlen & Hall
        & Hpost & Hout).
  exists (fork_events str_other w server token u a r), results, post, server, a.
  split; [exact Ht|].
  split; [reflexivity|].
  split; [rewrite existsb_app, Hpost; reflexivity|].
  split.
  { exists (mk_request POST (u ++ "/fork") (auth token) (fork_payload a)), r,
      newProject, newId, newUrl.
    split; [unfold fork_events; simpl; auto 10|].
    split; [exact Hr|]. split; [exact Hh|]. split; [exact Hj|]. split; [exact Hid|].
    split; [exact Hn|]. split; [now rewrite Hreq|].
    intros Hp z ->. rewrite Hreq. cbn [url].
    rewrite (project_url _ _ Hp) in Hn. now inversion Hn. }
  split; [now rewrite Hreq|].
  split; [exact Hlen|].
  split; [exact Hall|].
  split; [exact Hs|].
  split; [exact Ha|].
  intros Hnull. destruct (Hout Hnull) as (H5 & Hp & Hf).
  rewrite Hf. repeat split; assumption.
Qed.

(** What does hold of the exit status.  The script ends with exit status 0
    by running to its end, which it does exactly when the README commit is
    answered with status 200, the fork having been answered with 201 and the
    description update with 200.  It ends with exit status 1, a diagnostic
    line on standard output being its last action, when the fork is answered
    with another status than 201, when one of the two PUTs is answered with
    another status than 200, and when the last poll still shows a null
    default branch. *)
Lemma checked_calls_exit_status w :
  (forall req r,
      In (EvHttp ReadmePut req (Responded r)) (trace (run w)) ->
      status_code r = PUT_OK ->
      final (run w) = Completed /\ exit_status (final (run w)) = 0%Z) /\
  (final (run w) = Completed ->
   exists fork rf upd ru readme rr,
     In (EvHttp ForkPost fork (Responded rf)) (trace (run w)) /\
     status_code rf = POST_OK /\
     In (EvHttp DescriptionPut upd (Responded ru)) (trace (run w)) /\
     status_code ru = PUT_OK /\
     In (EvHttp ReadmePut readme (Responded rr)) (trace (run w)) /\
     status_code rr = PUT_OK) /\
  (forall site req r st,
      In (EvHttp site req (Responded r)) (trace (run w)) ->
      expected_status site = Some st ->
      status_code r <> st ->
      exit_status (final (run w)) = 1%Z /\ diagnostic_printed (trace (run w))) /\
  (timed_out json_loads (trace (run w)) = true ->
   exit_status (final (run w)) = 1%Z /\ diagnostic_printed (trace (run w))).
Proof.
  split; [|split; [|split]].
  - intros req r H He. rewrite (readme_accepted w req r H He). split; reflexivity.
  - intros H.
    destruct (completed_run w H)
      as (results & server & a & token & u & r & newProject & newId & newUrl & res
          & rd & template & sshURL & httpURL & readme & rr
          & _ & _ & _ & _ & _ & Hr & _ & _ & _ & _ & _ & _ & Hrd & _ & _ & _ & _
          & Hrr & Ht).
    rewrite Ht. do 6 eexists.
    split; [|split; [exact Hr|split; [|split; [exact Hrd|split; [|exact Hrr]]]]].
    + apply in_or_app. left. unfold fork_events. simpl. auto 10.
    + apply in_or_app. right. right. apply in_or_app. right.
      unfold commit_events. simpl. auto 10.
    + apply in_or_app. right. right. apply in_or_app. right.
      unfold commit_events. simpl. auto 10.
  - intros site req r st H Hst Hne.
    destruct site; simpl in Hst; try discriminate; inversion Hst; subst st.
    + destruct (fork_refused w req r H Hne) as [-> Hl]. split; [reflexivity|].
      eexists. exact Hl.
    + destruct (description_refused w req r H Hne) as [-> Hl]. split; [reflexivity|].
      eexists. exact Hl.
    + destruct (readme_refused w req r H Hne) as [-> Hl]. split; [reflexivity|].
      eexists. exact Hl.
  - unfold timed_out. intros Hnull.
    destruct (polled_or_not w) as [E|(req & res & H)].
    { rewrite E in Hnull. discriminate Hnull. }
    destruct (polled_run w req res H)
      as (results & post & server & a & token & u & r & newProject & newId & newUrl
          & _ & _ & _ & _ & _ & _ & _ & _ & _ & _ & _ & Ht & _ & _ & Hpost & Hout).
    rewrite Ht in Hnull.
    rewrite poll_results_app in Hnull. cbn [fork_events poll_results app] in Hnull.
    rewrite poll_results_app, poll_results_retries, (poll_results_none _ Hpost),
      app_nil_r in Hnull.
    destruct (Hout Hnull) as (_ & Hp & Hf). rewrite Hf. split; [reflexivity|].
    rewrite Ht, Hp. eexists. last_ev.
Qed.

(** C3, as the script has it. When the fork is answered with another status
    than 201 the script prints one line that holds the status code and the
    response body, and exits with status 1. When the description update or the
    README commit is answered with another status than 200 the script prints
    one line that holds the response body, and exits with status 1. *)
Theorem refusal_messages w req r :
  (In (EvHttp ForkPost req (Responded r)) (trace (run w)) ->
   status_code r <> POST_OK ->
   final (run w) = SysExit 1 /\
   last_event (trace (run w)) = Some (EvPrint (msg_fork (status_code r) (text r))) /\
   contains (dec (status_code r)) (msg_fork (status_code r) (text r)) = true /\
   contains (text r) (msg_fork (status_code r) (text r)) = true) /\
  (In (EvHttp DescriptionPut req (Responded r)) (trace (run w)) ->
   status_code r <> PUT_OK ->
   final (run w) = SysExit 1 /\
   last_event (trace (run w)) = Some (EvPrint (msg_description (text r))) /\
   contains (text r) (msg_description (text r)) = true) /\
  (In (EvHttp ReadmePut req (Responded r)) (trace (run w)) ->
   status_code r <> PUT_OK ->
   final (run w) = SysExit 1 /\
   last_event (trace (run w)) = Some (EvPrint (msg_readme (text r))) /\
   contains (text r) (msg_readme (text r)) = true).
Proof.
  split; [|split]; intros H Hne.
  - destruct (fork_refused w req r H Hne) as [Hf Hl].
    split; [exact Hf|]. split; [exact Hl|]. unfold msg_fork. split.
    + apply contains_append.
    + rewrite <- (append_assoc _ " and the result text is "),
        <- (append_assoc _ (_ ++ " and the result text is ")).
      apply contains_append.
  - destruct (description_refused w req r H Hne) as [Hf Hl].
    split; [exact Hf|]. split; [exact Hl|]. unfold msg_description.
    rewrite <- (append_nil_r (text r)) at 2. apply contains_append.
  - destruct (readme_refused w req r H Hne) as [Hf Hl].
    split; [exact Hf|]. split; [exact Hl|]. unfold msg_readme.
    rewrite <- (append_nil_r (text r)) at 2. apply contains_append.
Qed.

(** C4, as the script has it. When NUMAPDE_GITLAB_SERVER is unset the script
    prints the request to set it and exits with status 1, whatever the command
    line. When it is set, the command line is accepted by the parser and
    NUMAPDE_GITLAB_TOKEN is unset, the script prints the request to set the
    token and exits with status 1. When the server is set and the parser
    rejects the command line the process exits with status 2 before the token
    is looked at. In none of these runs is an HTTP request issued. *)
Theorem missing_environment w :
  (environ w "NUMAPDE_GITLAB_SERVER" = None ->
   trace (run w) = [EvGetEnv "NUMAPDE_GITLAB_SERVER"; EvPrint msg_server] /\
   final (run w) = SysExit 1) /\
  (forall server a,
      environ w "NUMAPDE_GITLAB_SERVER" = Some server ->
      parse_args (argv w) = Parsed a ->
      environ w "NUMAPDE_GITLAB_TOKEN" = None ->
      trace (run w) = [EvGetEnv "NUMAPDE_GITLAB_SERVER"; EvParseArgs (argv w);
                       EvGetEnv "NUMAPDE_GITLAB_TOKEN"; EvPrint msg_token] /\
      final (run w) = SysExit 1) /\
  (forall server,
      environ w "NUMAPDE_GITLAB_SERVER" = Some server ->
      parse_args (argv w) = ParseError ->
      trace (run w) = [EvGetEnv "NUMAPDE_GITLAB_SERVER"; EvParseArgs (argv w)] /\
      final (run w) = SysExit 2) /\
  (environ w "NUMAPDE_GITLAB_SERVER" = None \/
   environ w "NUMAPDE_GITLAB_TOKEN" = None ->
   calls (trace (run w)) = []).
Proof.
  split; [|split; [|split]].
  - intros H. exec_unfold. rewrite H. exec_unfold. split; reflexivity.
  - intros server a Hs Ha Ht. exec_unfold. rewrite Hs. exec_unfold.
    rewrite Ha. exec_unfold. rewrite Ht. exec_unfold. split; reflexivity.
  - intros server Hs Ha. exec_unfold. rewrite Hs. exec_unfold.
    rewrite Ha. exec_unfold. split; reflexivity.
  - intros [H|H]; exec_unfold.
    + rewrite H. reflexivity.
    + destruct (environ w "NUMAPDE_GITLAB_SERVER"); exec_unfold; [|reflexivity].
      destruct (parse_args (argv w)); exec_unfold;
        try reflexivity.
      rewrite H. reflexivity.
Qed.

(** C5. The [path] field of the fork request is the [shortTitle] argument with
    every space replaced by a hyphen and every other character unchanged: same
    length, and character by character a hyphen where the argument has a space
    and the argument's character elsewhere. *)
Theorem short_title_hyphenated w req res :
  In (EvHttp ForkPost req res) (trace (run w)) ->
  exists a path,
    parse_args (argv w) = Parsed a /\
    dict_get (data req) "path" = Some (PStr path) /\
    path = replace " " "-" (shortTitle a) /\
    String.length path = String.length (shortTitle a) /\
    forall i,
      String.get i path
      = option_map (fun c => if Ascii.eqb c " " then "-"%char else c)
                   (String.get i (shortTitle a)).
Proof.
  intros H.
  destruct (fork_request w req res H) as (server & a & token & u & _ & Ha & _ & _ & -> & _).
  exists a, (replace " " "-" (shortTitle a)).
  split; [exact Ha|]. split; [reflexivity|]. split; [reflexivity|].
  split; [apply replace_length | intros i; apply replace_get].
Qed.

(** C6, as the script has it. The content committed as README.md is the result
    of Python's [%] operator on the template and the three values. When every
    [%] of the template starts one of the three placeholders, it is the
    template with [%(PUBLICATION_TITLE)s] replaced by the [longTitle]
    argument, [%(HTTP_URL_TO_REPO)s] by the fork response's [http_url_to_repo]
    and [%(SSH_URL_TO_REPO)s] by its [ssh_url_to_repo]. *)
Theorem readme_substitution w req res :
  In (EvHttp ReadmePut req res) (trace (run w)) ->
  exists a fork newProject template httpURL sshURL content,
    parse_args (argv w) = Parsed a /\
    http w 0 = Responded fork /\
    json_loads (text fork) = Some newProject /\
    subscript newProject "http_url_to_repo" = inr httpURL /\
    subscript newProject "ssh_url_to_repo" = inr sshURL /\
    read_file w (readmePath w) = Some template /\
    pymod template (readme_dict a httpURL sshURL) = inr content /\
    dict_get (data req) "content" = Some (PStr content) /\
    (only_placeholders 0 template = true ->
     content = replace_placeholders (longTitle a) (str str_other httpURL)
                                    (str str_other sshURL) 0 template).
Proof.
  intros H.
  destruct (readme_request w req res H)
    as (a & token & fork & newProject & newUrl & template & httpURL & sshURL & readme
        & Ha & Hf & Hj & Hh & Hs & Hr & Hm & ->).
  exists a, fork, newProject, template, httpURL, sshURL, readme.
  repeat (split; [assumption|]). split; [reflexivity|].
  intros Honly. rewrite (pymod_only_placeholders _ _ _ _ Honly) in Hm.
  now inversion Hm.
Qed.

(** C7. A run that completes issues these calls, in this order and no other:
    one POST on the template project's URL followed by [/fork], one GET on the
    new project's URL, at most five more GETs on it, one PUT on it, and one
    PUT on it followed by [/repository/files/README.md]. The new project is
    the one the fork created: its URL is built from the [id] of the answer to
    the fork POST, and the description PUT sends that [id] as data. With a
    server name free of [%] the URLs are
    [https://<server>/api/v4/projects/5326/fork] and
    [https://<server>/api/v4/projects/<id>]. *)
Theorem success_calls w :
  final (run w) = Completed ->
  exists server u newId newUrl k,
    environ w "NUMAPDE_GITLAB_SERVER" = Some server /\
    pymod (urlFormat server) [("projectId", PInt templateId)] = inr u /\
    pymod (urlFormat server) [("projectId", newId)] = inr newUrl /\
    k <= 5 /\
    calls (trace (run w)) =
      (ForkPost, POST, u ++ "/fork")%string
      :: (PollGet, GET, newUrl)
      :: repeat (PollRetry, GET, newUrl) k
      ++ [(DescriptionPut, PUT, newUrl);
          (ReadmePut, PUT, newUrl ++ "/repository/files/README.md")%string] /\
    (no_percent server = true ->
     u = ("https://" ++ server ++ "/api/v4/projects/5326")%string /\
     forall z, newId = PInt z ->
               newUrl = ("https://" ++ server ++ "/api/v4/projects/" ++ dec z)%string) /\
    (exists fork forked newProject,
        In (EvHttp ForkPost fork (Responded forked)) (trace (run w)) /\
        http w 0 = Responded forked /\
        status_code forked = POST_OK /\
        json_loads (text forked) = Some newProject /\
        subscript newProject "id" = inr newId) /\
    (forall req res,
        In (EvHttp DescriptionPut req res) (trace (run w)) ->
        dict_get (data req) "id" = Some newId).
Proof.
  intros H.
  destruct (completed_run w H)
    as (results & server & a & token & u & r & newProject & newId & newUrl & res
        & rd & template & sshURL & httpURL & readme & rr
        & Hs & _ & _ & Hu & Hh & Hr & Hj & Hid & Hn & _ & Hlen & _ & _ & _ & _ & _ & _
        & _ & Ht).
  exists server, u, newId, newUrl, (length results).
  split; [exact Hs|]. split; [exact Hu|]. split; [exact Hn|]. split; [exact Hlen|].
  split; [|split; [|split]].
  - rewrite Ht, calls_app. cbn [fork_events calls app method url].
    rewrite calls_app, calls_retries. reflexivity.
  - intros Hp. split.
    + rewrite (project_url _ _ Hp) in Hu. now inversion Hu.
    + intros z ->. rewrite (project_url _ _ Hp) in Hn. now inversion Hn.
  - exists (mk_request POST (u ++ "/fork") (auth token) (fork_payload a)), r, newProject.
    split; [|repeat split; assumption].
    rewrite Ht. apply in_or_app. left. unfold fork_events. simpl. auto 10.
  - intros req res' Hin. rewrite Ht in Hin.
    apply in_app_or in Hin. destruct Hin as [Hin|Hin].
    { unfold fork_events in Hin. simpl in Hin.
      repeat (destruct Hin as [Hin|Hin]; [discriminate Hin|]). contradiction. }
    destruct Hin as [Hin|Hin]; [discriminate Hin|].
    apply in_app_or in Hin. destruct Hin as [Hin|Hin].
    { apply in_retries in Hin. destruct Hin as [Hin|(? & _ & Hin)]; discriminate Hin. }
    unfold commit_events in Hin. simpl in Hin.
    destruct Hin as [Hin|Hin]; [inversion Hin; subst; reflexivity|].
    repeat (destruct Hin as [Hin|Hin]; [discriminate Hin|]). contradiction.
Qed.

(** C8, as the script has it. Every run starts by reading
    NUMAPDE_GITLAB_SERVER from the environment. A run that completes does, in
    this order and nothing else: read NUMAPDE_GITLAB_SERVER, parse the command
    line, read NUMAPDE_GITLAB_TOKEN, announce and send the fork POST, announce
    and send the first poll GET, run the rounds of the polling loop, send the
    description PUT, announce and read the template, send the README PUT and
    print the two lines of instructions. *)
Theorem success_order w :
  hd_error (trace (run w)) = Some (EvGetEnv "NUMAPDE_GITLAB_SERVER") /\
  (final (run w) = Completed ->
   exists server a token forkUrl fork newId newUrl res results upd readme rr sshURL,
     trace (run w) =
       [EvGetEnv "NUMAPDE_GITLAB_SERVER";
        EvParseArgs (argv w);
        EvGetEnv "NUMAPDE_GITLAB_TOKEN";
        EvPrint (msg_requesting str_other forkUrl server a);
        EvHttp ForkPost (mk_request POST forkUrl (auth token) (fork_payload a))
               (Responded fork);
        EvPrint (msg_waiting 5);
        EvHttp PollGet (mk_request GET newUrl (auth token) []) res]
       ++ retries (mk_request GET newUrl (auth token) []) results
       ++ [EvHttp DescriptionPut
                  (mk_request PUT newUrl (auth token) (description_payload newId a))
                  (Responded upd);
           EvPrint (msg_template (readmePath w));
           EvRead (readmePath w);
           EvHttp ReadmePut
                  (mk_request PUT (newUrl ++ "/repository/files/README.md")
                              (auth token) (readme_payload w readme))
                  (Responded rr);
           EvPrint (msg_clone str_other sshURL);
           EvPrint msg_update]).
Proof.
  split.
  - exec; reflexivity.
  - intros H.
    destruct (completed_run w H)
      as (results & server & a & token & u & r & newProject & newId & newUrl & res
          & rd & template & sshURL & httpURL & readme & rr
          & _ & _ & _ & _ & _ & _ & _ & _ & _ & _ & _ & _ & _ & _ & _ & _ & _ & _
          & Ht).
    exists server, a, token, (u ++ "/fork")%string, r, newId, newUrl, res, results,
      rd, readme, rr, sshURL.
    exact Ht.
Qed.

(** C9. The request that commits README.md is a PUT on the new project's
    [/repository/files/README.md] whose [branch] field is the string [master],
    in every run and so whatever [default_branch] the server reported while it
    was polled. *)
Theorem readme_branch_master w req res :
  In (EvHttp ReadmePut req res) (trace (run w)) ->
  method req = PUT /\
  (exists newUrl, url req = (newUrl ++ "/repository/files/README.md")%string) /\
  dict_get (data req) "branch" = Some (PStr "master").
Proof.
  intros H.
  destruct (readme_request w req res H)
    as (a & token & fork & newProject & newUrl & template & httpURL & sshURL & readme
        & _ & _ & _ & _ & _ & _ & _ & ->).
  split; [reflexivity|]. split; [exists newUrl; reflexivity | reflexivity].
Qed.

(** C10. On a command line made of positional strings and the two option
    strings, an option that is followed by nothing or by another option, and
    that is not given again later, leaves [None] in its attribute, not the
    default; the fork request then carries [None] as [namespace] and the
    description update carries [None] as [description]. The defaults apply
    when the option does not occur at all. *)
Theorem bare_option_is_None w pre post a :
  plain_args (argv w) = true ->
  parse_args (argv w) = Parsed a ->
  no_value_follows post = true ->
  (argv w = pre ++ "--namespace"%string :: post ->
   existsb (String.eqb "--namespace") post = false ->
   namespace a = None /\
   forall req res,
     In (EvHttp ForkPost req res) (trace (run w)) ->
     dict_get (data req) "namespace" = Some PNone) /\
  (argv w = pre ++ "--description"%string :: post ->
   existsb (String.eqb "--description") post = false ->
   description a = None /\
   forall req res,
     In (EvHttp DescriptionPut req res) (trace (run w)) ->
     dict_get (data req) "description" = Some PNone) /\
  (existsb (String.eqb "--namespace") (argv w) = false ->
   namespace a = Some default_namespace) /\
  (existsb (String.eqb "--description") (argv w) = false ->
   description a = Some default_description).
Proof.
  intros Hplain Ha Hbare.
  assert (Hc : consume (argv w) [] (Some default_namespace) (Some default_description)
               = Parsed a).
  { unfold_parse_args_in Ha. now rewrite Hplain in Ha. }
  split; [|split; [|split]].
  - intros Hargv Hlater. rewrite Hargv in Hc.
    assert (Hns : namespace a = None).
    { eapply (consume_bare _ pre); [apply Nat.le_refl | exact Hbare | exact Hc | exact Hlater]. }
    split; [exact Hns|]. intros req res H.
    destruct (fork_request w req res H) as (server & a' & token & u & _ & Ha' & _ & _ & -> & _).
    rewrite Ha in Ha'. inversion Ha'; subst a'. cbn. now rewrite Hns.
  - intros Hargv Hlater. rewrite Hargv in Hc.
    assert (Hd : description a = None).
    { eapply (consume_bare _ pre); [apply Nat.le_refl | exact Hbare | exact Hc | exact Hlater]. }
    split; [exact Hd|]. intros req res H.
    destruct (description_request w req res H) as (a' & token & newId & newUrl & Ha' & ->).
    rewrite Ha in Ha'. inversion Ha'; subst a'. cbn. now rewrite Hd.
  - intros E. apply (consume_keeps _ _ _ _ _ _ (Nat.le_refl _) Hc). exact E.
  - intros E. apply (consume_keeps _ _ _ _ _ _ (Nat.le_refl _) Hc). exact E.
Qed.

(** ** More about the calls *)






(** ** Sleeping *)






(** ** Exit statuses *)


(** ** Where a run stops *)





(** ** The access token *)





(** ** The path of the new project *)




(** ** Command lines *)







(** ** The requests after the fork *)



(** ** Templates *)







(** ** Answers that raise *)








(** ** The status of a poll answer *)











(** ** The template file *)




End Properties.

(** ** The example runs *)

Import Demo.

Ltac in_list := repeat first [left; reflexivity | right].

(** C1 on a run that times out: five rounds, then the message and exit status
    1. *)
Lemma poll_loop_bounded_witness :
  In (EvHttp PollGet req_poll (ok 200 body_null)) (trace (run_demo w_timeout)) /\
  exists pre results post,
    trace (run_demo w_timeout)
    = pre ++ EvHttp PollGet req_poll (ok 200 body_null)
          :: retries req_poll results ++ post /\
    length results = 5 /\
    post = [EvPrint (msg_timeout str_other "gitlab.example.org" (Some default_namespace))] /\
    final (run_demo w_timeout) = SysExit 1.
Proof.
  assert (H : In (EvHttp PollGet req_poll (ok 200 body_null))
                 (trace (run_demo w_timeout))) by (vm_compute; in_list).
  split; [exact H|].
  destruct (poll_loop_bounded loads str_other mod_other parse_other w_timeout _ _ H)
    as (pre & results & post & server & a & Ht & _ & Hq & _ & _ & _ & _ & Hs & Ha & Hout).
  exists pre, results, post. split; [exact Ht|].
  rewrite existsb_app in Hq. apply orb_false_elim in Hq as [Hpre Hpost].
  assert (Hres : poll_results (trace (run_demo w_timeout))
                 = ok 200 body_null :: results).
  { unfold run_demo. rewrite Ht, poll_results_app, (poll_results_none _ Hpre).
    cbn [app poll_results].
    now rewrite poll_results_app, poll_results_retries, (poll_results_none _ Hpost),
      app_nil_r. }
  vm_compute in Hres. injection Hres as <-.
  vm_compute in Hs. injection Hs as <-.
  vm_compute in Ha. injection Ha as <-.
  destruct Hout as (H5 & Hp & Hf & _); [reflexivity|].
  split; [exact H5|]. split; [exact Hp | exact Hf].
Defined.

(** C2. The status of a poll answer is never compared with [GET_OK]. A first
    poll answered with 404 and Gitlab's error body makes
    [projInfo['default_branch']] raise [KeyError]: the process ends with
    status 1 through the traceback, the failed call is the last thing the
    script did and the only lines on standard output are the two announcements
    printed before it. A first poll answered with 500 whose body names a
    default branch is taken for a success and the run completes with status 0.
    Neither run is as the sentence on exit codes states. *)
Theorem poll_status_unchecked :
  (final (run_demo w_poll_not_found) = Uncaught KeyError /\
   exit_status (final (run_demo w_poll_not_found)) = 1%Z /\
   last_event (trace (run_demo w_poll_not_found))
   = Some (EvHttp PollGet req_poll (ok 404 body_not_found)) /\
   printed (trace (run_demo w_poll_not_found))
   = [msg_requesting str_other (url req_fork) "gitlab.example.org" demo_args;
      msg_waiting 5] /\
   ~ stated_exit_codes loads (run_demo w_poll_not_found)) /\
  (In (EvHttp PollGet req_poll (ok 500 body_main))
      (trace (run_demo w_poll_error_with_project)) /\
   final (run_demo w_poll_error_with_project) = Completed /\
   exit_status (final (run_demo w_poll_error_with_project)) = 0%Z /\
   ~ stated_exit_codes loads (run_demo w_poll_error_with_project)).
Proof.
  split.
  - repeat (split; [reflexivity|]).
    intros [_ H]. destruct H as [_ (msg & Hm)]; [left; vm_compute; reflexivity|].
    vm_compute in Hm. discriminate Hm.
  - split; [vm_compute; in_list|]. repeat (split; [reflexivity|]).
    intros [_ H]. destruct H as [Hs _]; [left; vm_compute; reflexivity|].
    vm_compute in Hs. discriminate Hs.
Qed.

(** The checked calls on a run whose description update is refused. *)
Lemma checked_calls_exit_status_example :
  exit_status (final (run_demo w_description_refused)) = 1%Z /\
  diagnostic_printed (trace (run_demo w_description_refused)).
Proof.
  destruct (checked_calls_exit_status loads str_other mod_other parse_other
              w_description_refused) as (_ & _ & H & _).
  apply (H DescriptionPut req_description (mk_response 403 body_forbidden) PUT_OK).
  - vm_compute. in_list.
  - reflexivity.
  - discriminate.
Qed.

(** A request that cannot be sent: the exception is not caught, the process
    ends with status 1 and the call is the last thing the script did. *)
Lemma no_connection_run :
  final (run_demo w_no_connection) = Uncaught RequestException /\
  last_event (trace (run_demo w_no_connection)) = Some (EvHttp ForkPost req_fork Failed).
Proof. split; reflexivity. Qed.

(** C3, as the specification states it, fails on a refused description update:
    no printed line holds the status code 403. *)
Lemma refusal_counterexample :
  ~ stated_refusal (run_demo w_description_refused).
Proof.
  intros H.
  destruct (H DescriptionPut req_description (mk_response 403 body_forbidden))
    as (_ & msg & Hin & Hcode & _).
  - vm_compute. in_list.
  - reflexivity.
  - vm_compute in Hin.
    destruct Hin as [<-|[<-|[<-|[]]]]; vm_compute in Hcode; discriminate Hcode.
Qed.

(** C3, as the script has it, on a refused fork. *)
Lemma refusal_messages_witness :
  final (run_demo w_fork_refused) = SysExit 1 /\
  last_event (trace (run_demo w_fork_refused))
  = Some (EvPrint (msg_fork 409 body_forbidden)).
Proof.
  destruct (refusal_messages loads str_other mod_other parse_other w_fork_refused
              req_fork (mk_response 409 body_forbidden)) as (H & _).
  destruct H as (Hf & Hl & _).
  - vm_compute. in_list.
  - discriminate.
  - split; [exact Hf | exact Hl].
Defined.

(** C4, as the specification states it, fails when the token is unset and the
    command line lacks the two titles: the parser ends the process with status
    2 before the token is looked at, and nothing is printed on standard
    output. *)
Lemma missing_environment_counterexample :
  ~ stated_environment_check w_no_token_no_args (run_demo w_no_token_no_args).
Proof.
  intros H. destruct H as (_ & Hs & _); [right; reflexivity|].
  vm_compute in Hs. discriminate Hs.
Qed.

(** C4, as the script has it, on runs without server and without token. *)
Lemma missing_environment_witness :
  (trace (run_demo w_no_server) = [EvGetEnv "NUMAPDE_GITLAB_SERVER"; EvPrint msg_server] /\
   final (run_demo w_no_server) = SysExit 1) /\
  (trace (run_demo w_no_token)
   = [EvGetEnv "NUMAPDE_GITLAB_SERVER"; EvParseArgs titles;
      EvGetEnv "NUMAPDE_GITLAB_TOKEN"; EvPrint msg_token] /\
   final (run_demo w_no_token) = SysExit 1) /\
  calls (trace (run_demo w_no_token_no_args)) = [].
Proof.
  split; [|split].
  - apply (missing_environment loads str_other mod_other parse_other w_no_server).
    reflexivity.
  - destruct (missing_environment loads str_other mod_other parse_other w_no_token)
      as (_ & H & _).
    apply (H "gitlab.example.org"%string demo_args); reflexivity.
  - apply (missing_environment loads str_other mod_other parse_other w_no_token_no_args).
    right. reflexivity.
Defined.

(** C5 on a complete run. *)
Lemma short_title_hyphenated_witness :
  In (EvHttp ForkPost req_fork (ok 201 body_fork)) (trace (run_demo w_ok)) /\
  exists a path,
    parse_args parse_other (argv w_ok) = Parsed a /\
    dict_get (data req_fork) "path" = Some (PStr path) /\
    path = replace " " "-" (shortTitle a).
Proof.
  assert (H : In (EvHttp ForkPost req_fork (ok 201 body_fork)) (trace (run_demo w_ok)))
    by (vm_compute; in_list).
  split; [exact H|].
  destruct (short_title_hyphenated loads str_other mod_other parse_other w_ok _ _ H)
    as (a & path & Ha & Hp & He & _).
  exists a, path. repeat split; assumption.
Defined.

(** C6, as the specification states it, fails on a template that holds [%%]:
    the [%] operator writes one [%] where replacing the placeholders leaves
    two. *)
Lemma readme_counterexample :
  ~ stated_readme loads str_other parse_other w_percent (run_demo w_percent).
Proof.
  intros H.
  assert (Hin : exists req res, In (EvHttp ReadmePut req res) (trace (run_demo w_percent)))
    by (do 2 eexists; vm_compute; in_list).
  destruct Hin as (req & res & Hin).
  pose proof (H req res demo_args (mk_response 201 body_fork)
                (PDict [("id", PInt 77); ("ssh_url_to_repo", PStr ssh_url);
                        ("http_url_to_repo", PStr http_url)])
                (PStr http_url) (PStr ssh_url) template_percent Hin
                eq_refl eq_refl eq_refl eq_refl eq_refl eq_refl) as Hc.
  vm_compute in Hin.
  repeat (destruct Hin as [Hin|Hin]; [try discriminate Hin|]); [|contradiction].
  inversion Hin; subst req. vm_compute in Hc. discriminate Hc.
Qed.

(** C6, as the script has it, on a complete run with a template of
    placeholders. *)
Lemma readme_substitution_witness :
  exists req res content,
    In (EvHttp ReadmePut req res) (trace (run_demo w_ok)) /\
    dict_get (data req) "content" = Some (PStr content) /\
    content = replace_placeholders "ADMM on Riemannian manifolds" http_url ssh_url 0
                                   template_plain.
Proof.
  assert (Hin : exists req res, In (EvHttp ReadmePut req res) (trace (run_demo w_ok)))
    by (do 2 eexists; vm_compute; in_list).
  destruct Hin as (req & res & Hin).
  destruct (readme_substitution loads str_other mod_other parse_other w_ok req res Hin)
    as (a & fork & newProject & template & httpURL & sshURL & content
        & Ha & Hf & Hj & Hh & Hs & Hr & _ & Hc & Honly).
  exists req, res, content. split; [exact Hin|]. split; [exact Hc|].
  vm_compute in Ha. injection Ha as <-.
  vm_compute in Hf. injection Hf as <-.
  vm_compute in Hj. injection Hj as <-.
  vm_compute in Hh. injection Hh as <-.
  vm_compute in Hs. injection Hs as <-.
  vm_compute in Hr. injection Hr as <-.
  rewrite Honly; reflexivity.
Defined.

(** C7 on a complete run. *)
Lemma success_calls_witness :
  final (run_demo w_ok) = Completed /\
  exists u newUrl k,
    k <= 5 /\
    calls (trace (run_demo w_ok)) =
      (ForkPost, POST, u ++ "/fork")%string
      :: (PollGet, GET, newUrl)
      :: repeat (PollRetry, GET, newUrl) k
      ++ [(DescriptionPut, PUT, newUrl);
          (ReadmePut, PUT, newUrl ++ "/repository/files/README.md")%string].
Proof.
  assert (H : final (run_demo w_ok) = Completed) by reflexivity.
  split; [exact H|].
  destruct (success_calls loads str_other mod_other parse_other w_ok H)
    as (server & u & newId & newUrl & k & _ & _ & _ & Hk & Hc & _).
  exists u, newUrl, k. split; [exact Hk | exact Hc].
Defined.

(** C8, as the specification states it, fails on every run, here a complete
    one: the environment is read before the command line is parsed. When the
    server variable is unset the command line is not parsed at all. *)
Lemma order_counterexample :
  ~ stated_order (run_demo w_ok) /\
  trace (run_demo w_no_server_no_args)
  = [EvGetEnv "NUMAPDE_GITLAB_SERVER"; EvPrint msg_server].
Proof.
  split; [|reflexivity].
  unfold stated_order. vm_compute. discriminate.
Qed.

(** C8, as the script has it, on a complete run. *)
Lemma success_order_witness :
  final (run_demo w_ok) = Completed /\
  parsing_precedes_environment (trace (run_demo w_ok)) = false /\
  exists pre, trace (run_demo w_ok) = pre ++ [EvPrint msg_update].
Proof.
  assert (H : final (run_demo w_ok) = Completed) by reflexivity.
  split; [exact H|].
  destruct (success_order loads str_other mod_other parse_other w_ok) as (_ & Hs).
  destruct (Hs H)
    as (server & a & token & forkUrl & fork & newId & newUrl & res & results & upd
        & readme & rr & sshURL & Ht).
  unfold run_demo. rewrite Ht.
  split; [reflexivity|].
  rewrite app_assoc.
  match goal with
  | |- exists pre, ?l ++ [?e1; ?e2; ?e3; ?e4; ?e5; ?e6] = _ =>
      exists (l ++ [e1; e2; e3; e4; e5]); rewrite <- (app_assoc l); reflexivity
  end.
Defined.

(** C9 on a complete run whose project reports the default branch [main]. *)
Lemma readme_branch_master_witness :
  exists req res,
    In (EvHttp PollRetry req_poll (ok 200 body_main)) (trace (run_demo w_ok)) /\
    In (EvHttp ReadmePut req res) (trace (run_demo w_ok)) /\
    dict_get (data req) "branch" = Some (PStr "master").
Proof.
  assert (Hin : exists req res, In (EvHttp ReadmePut req res) (trace (run_demo w_ok)))
    by (do 2 eexists; vm_compute; in_list).
  destruct Hin as (req & res & Hin).
  exists req, res. split; [vm_compute; in_list|]. split; [exact Hin|].
  apply (readme_branch_master loads str_other mod_other parse_other w_ok req res Hin).
Defined.

(** C10 on two command lines: [--namespace] at the end, and [--description]
    followed by another option. *)
Lemma bare_option_is_None_witness :
  (exists a,
      parse_args parse_other (argv w_bare_namespace) = Parsed a /\
      namespace a = None /\
      forall req res,
        In (EvHttp ForkPost req res) (trace (run_demo w_bare_namespace)) ->
        dict_get (data req) "namespace" = Some PNone) /\
  (exists a,
      parse_args parse_other (argv w_bare_description) = Parsed a /\
      description a = None /\
      forall req res,
        In (EvHttp DescriptionPut req res) (trace (run_demo w_bare_description)) ->
        dict_get (data req) "description" = Some PNone).
Proof.
  split.
  - eexists. split; [reflexivity|].
    apply (bare_option_is_None loads str_other mod_other parse_other
             w_bare_namespace titles []); reflexivity.
  - eexists. split; [reflexivity|].
    apply (bare_option_is_None loads str_other mod_other parse_other
             w_bare_description titles ["--namespace"; "numapde/Sandbox"]%string);
      reflexivity.
Defined.

(** ** More example runs *)

Import Cases.




















